(** * Time-zone converter: the conversion core of [server.js]

    A shallow embedding of [getOffset], [convertTime],
    [calculateEpochFromTimezone] and of the handlers of [/convert-multi],
    [/convert] and [/current], together with the pieces of the JavaScript
    runtime they call: [String.prototype.split], [Number] applied to a
    string, [Date.UTC], [new Date], [Date.prototype.toISOString] and
    [Intl.DateTimeFormat].  The definitions that embed the program come
    first, then the vocabulary of the statements, then the lemmas and the
    theorems.

    Conventions of the embedding.
    - A JavaScript string is a [string]; every [ascii] stands for one code
      unit in the range 0..255.
    - A JavaScript number is [NaN], an infinity, or the rational value of
      a double.  The results of [-], [*], [/] and of [Number] are rounded
      to binary64, to nearest with ties to even ([round64]).  The
      arithmetic inside [Date.UTC] is on whole numbers and is written
      exactly: binary64 is exact on whole numbers up to 2^53 in magnitude,
      and a time value is below 2^53; components so large that a step
      inside [Date.UTC] passes 2^53 are not reproduced.  The two signed
      zeros are one value.
    - [undefined] is [None] in an [option].
    - A thrown exception is the [Throw] case of [result].
    - The time-zone rules, which the runtime takes from its own tables, are
      a parameter [tzdb] of the development. *)

From Stdlib Require Import ZArith QArith Qabs Qreduction Qcanon String Ascii List Bool Lia.
From stdpp Require Import gmap strings.

Local Open Scope string_scope.
Local Open Scope list_scope.
Local Open Scope Z_scope.

(* ===================================================================== *)
(** ** Exceptions *)
(* ===================================================================== *)

(** What the code can throw: the [Error("Invalid date or time format")] of
    the two validations, and the two [RangeError]s of [Intl.DateTimeFormat]
    (unknown time zone at construction, invalid date at formatting). *)
Inductive error : Type :=
  | InvalidInput
  | RangeError_timeZone
  | RangeError_timeValue.

Inductive result (A : Type) : Type :=
  | Ok (a : A)
  | Throw (e : error).
Arguments Ok {A} a.
Arguments Throw {A} e.

(** Sequencing: a [Throw] ends the computation.  The notation
    [x ← r; k] below is the one of [MBind]. *)
#[global] Instance result_ret : MRet result := fun A a => Ok a.
#[global] Instance result_bind : MBind result := fun A B k r =>
  match r with
  | Ok a => k a
  | Throw e => Throw e
  end.

(* ===================================================================== *)
(** ** Numbers *)
(* ===================================================================== *)

Inductive number : Type :=
  | NaN
  | Inf (negative : bool)
  | Fin (q : Q).

Definition ofZ (z : Z) : number := Fin (inject_Z z).

Definition Qsign_neg (q : Q) : bool := Qnum q <? 0.
Definition Qis_zero (q : Q) : bool := Qnum q =? 0.

(** [a / b] rounded to the nearest whole number, a tie to the even one;
    for [0 <= a] and [0 < b]. *)
Definition rne (a b : Z) : Z :=
  let k := a / b in
  let r := a mod b in
  if 2 * r <? b then k
  else if b <? 2 * r then k + 1
  else if Z.even k then k else k + 1.

(** Rounding to binary64, to nearest, ties to even.  The magnitude is
    counted in units of [2^-1074], the least positive double: [n / d] such
    units.  A double is [m * 2^s] units with [m <= 2^53] and [0 <= s], and
    the doubles next to [n / d] have [s = max (log2 (n / d) - 52) 0].  From
    [2^1024] on, that is [2^2098] units, the result is an infinity. *)
Definition round64_grid (q : Q) : number :=
  let r := Qred q in
  let n := Z.abs (Qnum r) * 2 ^ 1074 in
  let d := Z.pos (Qden r) in
  let s := Z.max (Z.log2 (n / d) - 52) 0 in
  let m := rne n (d * 2 ^ s) in
  if 2 ^ 2098 <=? m * 2 ^ s then Inf (Qnum r <? 0)
  else Fin (Qred (Qmake (if Qnum r <? 0 then - (m * 2 ^ s) else m * 2 ^ s)
                    (Z.to_pos (2 ^ 1074)))).

(** The rounding the operations use.  A whole number up to [2^53] in
    magnitude is a double and is returned as it is, without the count of
    units; [round64_shortcut] shows that the count gives the same. *)
Definition round64 (q : Q) : number :=
  let r := Qred q in
  if (Z.pos (Qden r) =? 1) && (Z.abs (Qnum r) <=? 2 ^ 53) then Fin r
  else round64_grid q.

(** [a - b] *)
Definition nsub (a b : number) : number :=
  match a, b with
  | NaN, _ | _, NaN => NaN
  | Inf s, Inf s' => if Bool.eqb s s' then NaN else Inf s
  | Inf s, Fin _ => Inf s
  | Fin _, Inf s => Inf (negb s)
  | Fin x, Fin y => round64 (x - y)
  end.

(** [a * b] *)
Definition nmul (a b : number) : number :=
  match a, b with
  | NaN, _ | _, NaN => NaN
  | Inf s, Inf s' => Inf (xorb s s')
  | Inf s, Fin y => if Qis_zero y then NaN else Inf (xorb s (Qsign_neg y))
  | Fin x, Inf s => if Qis_zero x then NaN else Inf (xorb s (Qsign_neg x))
  | Fin x, Fin y => round64 (x * y)
  end.

(** [a / b]; a zero divisor is read as [+0]. *)
Definition ndiv (a b : number) : number :=
  match a, b with
  | NaN, _ | _, NaN => NaN
  | Inf _, Inf _ => NaN
  | Inf s, Fin y => Inf (xorb s (Qsign_neg y))
  | Fin _, Inf _ => Fin 0
  | Fin x, Fin y =>
      if Qis_zero y then (if Qis_zero x then NaN else Inf (Qsign_neg x))
      else round64 (x / y)
  end.

(** [-a] *)
Definition nneg (a : number) : number :=
  match a with
  | NaN => NaN
  | Inf s => Inf (negb s)
  | Fin x => Fin (Qred (- x))
  end.

(** [Number.isNaN(v)]: false on [undefined]. *)
Definition Number_isNaN (v : option number) : bool :=
  match v with
  | Some NaN => true
  | _ => false
  end.

(** [!v] *)
Definition falsy (v : option number) : bool :=
  match v with
  | None => true
  | Some NaN => true
  | Some (Inf _) => false
  | Some (Fin q) => Qis_zero q
  end.

(** [v == null] *)
Definition is_nullish (v : option number) : bool :=
  match v with
  | None => true
  | Some _ => false
  end.

(** [ToNumber] of a value that is a number or [undefined]. *)
Definition ToNumber (v : option number) : number :=
  match v with
  | None => NaN
  | Some n => n
  end.

(** Truncation towards zero. *)
Definition Qtrunc (q : Q) : Z := Z.quot (Qnum q) (Zpos (Qden q)).

(* ===================================================================== *)
(** ** Strings: [split] and [Number] *)
(* ===================================================================== *)

(** [s.split(sep)] for a separator of one character. *)
Fixpoint split (sep : ascii) (s : string) : list string :=
  match s with
  | EmptyString => [EmptyString]
  | String c rest =>
      if Ascii.eqb c sep then EmptyString :: split sep rest
      else match split sep rest with
           | [] => [String c EmptyString]
           | hd :: tl => String c hd :: tl
           end
  end.

Definition code (c : ascii) : Z := Z.of_N (N_of_ascii c).

(** White space and line terminators among the code units 0..255. *)
Definition isWhiteSpace (c : ascii) : bool :=
  let n := code c in
  ((9 <=? n) && (n <=? 13)) || (n =? 32) || (n =? 160).

Definition isDigit (c : ascii) : bool :=
  let n := code c in (48 <=? n) && (n <=? 57).

Definition digitVal (c : ascii) : Z := code c - 48.

(** Value of a hexadecimal digit, if it is one. *)
Definition hexVal (c : ascii) : option Z :=
  let n := code c in
  if (48 <=? n) && (n <=? 57) then Some (n - 48)
  else if (65 <=? n) && (n <=? 70) then Some (n - 55)
  else if (97 <=? n) && (n <=? 102) then Some (n - 87)
  else None.

Fixpoint dropWhile {A} (p : A -> bool) (l : list A) : list A :=
  match l with
  | [] => []
  | x :: r => if p x then dropWhile p r else l
  end.

Fixpoint span {A} (p : A -> bool) (l : list A) : list A * list A :=
  match l with
  | [] => ([], [])
  | x :: r => if p x then let '(a, b) := span p r in (x :: a, b) else ([], l)
  end.

Definition trim (l : list ascii) : list ascii :=
  rev (dropWhile isWhiteSpace (rev (dropWhile isWhiteSpace l))).

(** Value of a list of digits in a base, most significant first. *)
Definition digitsValue (base : Z) (ds : list Z) : Z :=
  fold_left (fun acc d => acc * base + d) ds 0.

(** Digits of a literal in base 2, 8 or 16: all of [l], at least one. *)
Definition radixLiteral (base : Z) (l : list ascii) : option Z :=
  match l with
  | [] => None
  | _ =>
      let ds := map hexVal l in
      if forallb (fun d => match d with Some v => v <? base | None => false end) ds
      then Some (digitsValue base (map (fun d => match d with Some v => v | None => 0 end) ds))
      else None
  end.

(** [ExponentPart], which must reach the end of the literal. *)
Definition exponentPart (l : list ascii) : option Z :=
  match l with
  | [] => Some 0
  | e :: r =>
      if (code e =? 101) || (code e =? 69) then
        let '(neg, ds) :=
          match r with
          | s :: r' =>
              if code s =? 45 then (true, r')
              else if code s =? 43 then (false, r') else (false, r)
          | [] => (false, r)
          end in
        match ds with
        | [] => None
        | _ =>
            if forallb isDigit ds
            then let v := digitsValue 10 (map digitVal ds) in
                 Some (if neg then - v else v)
            else None
        end
      else None
  end.

Definition Qpow10 (e : Z) : Q :=
  if e <? 0 then 1 # Pos.pow 10 (Z.to_pos (- e)) else inject_Z (10 ^ e).

(** [StrUnsignedDecimalLiteral] other than [Infinity]: the exact value of
    the digits, before it is rounded. *)
Definition unsignedDecimal (l : list ascii) : option Q :=
  let '(ip, r1) := span isDigit l in
  let '(fp, r2) :=
    match r1 with
    | c :: r => if code c =? 46 then span isDigit r else ([], r1)
    | [] => ([], r1)
    end in
  match ip, fp with
  | [], [] => None
  | _, _ =>
      match exponentPart r2 with
      | None => None
      | Some e =>
          let m := digitsValue 10 (map digitVal (ip ++ fp)) in
          Some (inject_Z m * Qpow10 (e - Z.of_nat (length fp)))%Q
      end
  end.

(** The double of a literal of magnitude [q].  The least magnitude that
    becomes an infinity is [2^1024 - 2^970], the greatest that becomes zero
    [2^-1075]. *)
Definition roundLiteral (neg : bool) (q : Q) : number :=
  round64 (if neg then - q else q).

Definition infinityLit : list ascii := list_ascii_of_string "Infinity".

Definition list_ascii_eqb (a b : list ascii) : bool :=
  String.eqb (string_of_list_ascii a) (string_of_list_ascii b).

(** [StringToNumber] on the trimmed text. *)
Definition strNumericLiteral (l : list ascii) : number :=
  match l with
  | [] => Fin 0
  | c0 :: rest =>
      let radix :=
        match rest with
        | x :: ds =>
            if code c0 =? 48 then
              if (code x =? 120) || (code x =? 88) then Some (16, ds)
              else if (code x =? 111) || (code x =? 79) then Some (8, ds)
              else if (code x =? 98) || (code x =? 66) then Some (2, ds)
              else None
            else None
        | [] => None
        end in
      match radix with
      | Some (base, ds) =>
          match radixLiteral base ds with
          | Some v => roundLiteral false (inject_Z v)
          | None => NaN
          end
      | None =>
          let '(neg, body) :=
            if code c0 =? 45 then (true, rest)
            else if code c0 =? 43 then (false, rest) else (false, l) in
          if list_ascii_eqb body infinityLit then Inf neg
          else match unsignedDecimal body with
               | Some q => roundLiteral neg q
               | None => NaN
               end
      end
  end.

(** [Number(s)] for a string [s]. *)
Definition Number (s : string) : number :=
  strNumericLiteral (trim (list_ascii_of_string s)).

(** [Number(v)] for a string or [undefined]. *)
Definition Number_opt (v : option string) : number :=
  match v with
  | None => NaN
  | Some s => Number s
  end.

(* ===================================================================== *)
(** ** Dates: [Date.UTC] and [new Date] *)
(* ===================================================================== *)

Definition msPerSecond : Z := 1000.
Definition msPerMinute : Z := 60000.
Definition msPerHour : Z := 3600000.
Definition msPerDay : Z := 86400000.

(** Greatest magnitude of a time value, 8.64e15 ms. *)
Definition maxTime : Z := 8640000000000000.

Definition DayFromYear (y : Z) : Z :=
  365 * (y - 1970) + (y - 1969) / 4 - (y - 1901) / 100 + (y - 1601) / 400.

Definition InLeapYear (y : Z) : bool :=
  if negb (y mod 4 =? 0) then false
  else if negb (y mod 100 =? 0) then true
  else if negb (y mod 400 =? 0) then false
  else true.

(** Day of the year on which month [mn] (0 = January) begins. *)
Definition monthStart (leap : bool) (mn : Z) : Z :=
  let l := if leap then 1 else 0 in
  match mn with
  | 0 => 0
  | 1 => 31
  | 2 => 59 + l
  | 3 => 90 + l
  | 4 => 120 + l
  | 5 => 151 + l
  | 6 => 181 + l
  | 7 => 212 + l
  | 8 => 243 + l
  | 9 => 273 + l
  | 10 => 304 + l
  | _ => 334 + l
  end.

(** [MakeFullYear]: a year from 0 to 99 denotes 1900 + year. *)
Definition MakeFullYear (year : number) : number :=
  match year with
  | NaN => NaN
  | Inf s => Inf s
  | Fin y =>
      let t := Qtrunc y in
      if (0 <=? t) && (t <=? 99) then ofZ (1900 + t) else ofZ t
  end.

Definition MakeDay (year month date : number) : number :=
  match year, month, date with
  | Fin y, Fin m, Fin dt =>
      let y := Qtrunc y in
      let m := Qtrunc m in
      let dt := Qtrunc dt in
      let ym := y + m / 12 in
      let mn := m mod 12 in
      ofZ (DayFromYear ym + monthStart (InLeapYear ym) mn + dt - 1)
  | _, _, _ => NaN
  end.

Definition MakeTime (hour min sec ms : number) : number :=
  match hour, min, sec, ms with
  | Fin h, Fin m, Fin s, Fin milli =>
      ofZ (Qtrunc h * msPerHour + Qtrunc m * msPerMinute
           + Qtrunc s * msPerSecond + Qtrunc milli)
  | _, _, _, _ => NaN
  end.

Definition MakeDate (day time : number) : number :=
  match day, time with
  | Fin d, Fin t => Fin (Qred (d * inject_Z msPerDay + t))
  | _, _ => NaN
  end.

Definition TimeClip (time : number) : number :=
  match time with
  | Fin t =>
      if Qle_bool (Qabs t) (inject_Z maxTime) then ofZ (Qtrunc t) else NaN
  | _ => NaN
  end.

(** [Date.UTC(year, month, date, hours, minutes, seconds)]; the call with
    five arguments is the one with [seconds = 0]. *)
Definition Date_UTC (year month date hours minutes seconds : number) : number :=
  TimeClip (MakeDate (MakeDay (MakeFullYear year) month date)
                     (MakeTime hours minutes seconds (ofZ 0))).

(** A [Date] object is its time value: [NaN] or a whole number of
    milliseconds within [maxTime]. *)
Definition JsDate : Type := number.
Definition newDate (value : number) : JsDate := TimeClip value.
Definition getTime (d : JsDate) : number := d.

(* ===================================================================== *)
(** ** The civil-time formatter, [Intl.DateTimeFormat] *)
(* ===================================================================== *)

(** The rules of the time zones: for a supported identifier, the offset of
    the zone's clock from UTC, in minutes, at each instant (in epoch
    milliseconds); [None] for an identifier the runtime does not know. *)
Definition TimeZoneDb : Type := string -> option (Z -> Z).

Record civil : Type := {
  c_year : Z;
  c_month : Z;
  c_day : Z;
  c_hour : Z;
  c_minute : Z;
  c_second : Z
}.

(** [YearFromTime] on day numbers: the greatest year that begins on or
    before the day, found next to the estimate by the mean year length. *)
Definition YearFromDay (day : Z) : Z :=
  let y0 := 1970 + day * 400 / 146097 in
  if DayFromYear (y0 + 1) <=? day then y0 + 1
  else if day <? DayFromYear y0 then y0 - 1
  else y0.

(** [MonthFromTime] (0 = January) on the day within the year. *)
Definition MonthFromDay (leap : bool) (dwy : Z) : Z :=
  let l := if leap then 1 else 0 in
  if dwy <? 31 then 0
  else if dwy <? 59 + l then 1
  else if dwy <? 90 + l then 2
  else if dwy <? 120 + l then 3
  else if dwy <? 151 + l then 4
  else if dwy <? 181 + l then 5
  else if dwy <? 212 + l then 6
  else if dwy <? 243 + l then 7
  else if dwy <? 273 + l then 8
  else if dwy <? 304 + l then 9
  else if dwy <? 334 + l then 10
  else 11.

(** Year, month (1..12) and day of the month of a day number counted from
    1970-01-01, in the proleptic Gregorian calendar. *)
Definition civil_from_days (day : Z) : Z * Z * Z :=
  let y := YearFromDay day in
  let dwy := day - DayFromYear y in
  let mn := MonthFromDay (InLeapYear y) dwy in
  (y, mn + 1, dwy - monthStart (InLeapYear y) mn + 1).

(** The calendar and clock fields of the instant [t] on a clock that is
    [off] minutes ahead of UTC. *)
Definition civilAt (off : Z) (t : Z) : civil :=
  let local := t + off * msPerMinute in
  let '(y, m, d) := civil_from_days (local / msPerDay) in
  let ms := local mod msPerDay in
  {| c_year := y; c_month := m; c_day := d;
     c_hour := ms / msPerHour;
     c_minute := (ms mod msPerHour) / msPerMinute;
     c_second := (ms mod msPerMinute) / msPerSecond |}.

Definition digitChar (d : Z) : ascii := ascii_of_N (Z.to_N (48 + d)).

(** Decimal digits of a natural number, without padding. *)
Fixpoint decDigits (fuel : nat) (n : Z) : list ascii :=
  match fuel with
  | O => [digitChar (n mod 10)]
  | S f =>
      if n <? 10 then [digitChar n]
      else decDigits f (n / 10) ++ [digitChar (n mod 10)]
  end.

Definition showNat (n : Z) : string :=
  string_of_list_ascii (decDigits (Z.to_nat (Z.log2 n)) n).

(** A field below 100 in two digits. *)
Definition pad2 (n : Z) : string :=
  String (digitChar (n / 10)) (String (digitChar (n mod 10)) EmptyString).

(** The year as [year: "numeric"] shows it without an era: the year of the
    era, so that the year 0 reads 1 and the year -1 reads 2. *)
Definition eraYear (y : Z) : Z := if y <=? 0 then 1 - y else y.

Record part : Type := { part_type : string; part_value : string }.

Section Converter.

(** The time-zone rules of the runtime. *)
Variable tzdb : TimeZoneDb.

(** Modelled from the spec: the external civil-time formatter, assumed
    correct and DST-aware for the supported identifiers.  This is
    [new Intl.DateTimeFormat("en-US", {timeZone, hour12: false,
    year: "numeric", month: "2-digit", day: "2-digit", hour: "2-digit",
    minute: "2-digit", second: "2-digit"}).formatToParts(date)]: the fields
    of the instant on the zone's clock, in the order and with the literals
    of the locale, hours from 00 to 23.  The constructor throws on an
    unknown zone, the method on an invalid date. *)
Definition Intl_formatToParts (timeZone : string) (date : JsDate)
  : result (list part) :=
  match tzdb timeZone with
  | None => Throw RangeError_timeZone
  | Some off =>
      match TimeClip date with
      | Fin q =>
          let t := Qtrunc q in
          let c := civilAt (off t) t in
          Ok [ {| part_type := "month"; part_value := pad2 (c_month c) |};
               {| part_type := "literal"; part_value := "/" |};
               {| part_type := "day"; part_value := pad2 (c_day c) |};
               {| part_type := "literal"; part_value := "/" |};
               {| part_type := "year"; part_value := showNat (eraYear (c_year c)) |};
               {| part_type := "literal"; part_value := ", " |};
               {| part_type := "hour"; part_value := pad2 (c_hour c) |};
               {| part_type := "literal"; part_value := ":" |};
               {| part_type := "minute"; part_value := pad2 (c_minute c) |};
               {| part_type := "literal"; part_value := ":" |};
               {| part_type := "second"; part_value := pad2 (c_second c) |} ]
      | _ => Throw RangeError_timeValue
      end
  end.

(** Modelled from the spec: the same formatter in 24-hour [HH:MM] mode,
    [new Intl.DateTimeFormat("en-US", {timeZone, hour: "2-digit",
    minute: "2-digit", hour12: false}).format(date)]. *)
Definition Intl_format (timeZone : string) (date : JsDate) : result string :=
  match tzdb timeZone with
  | None => Throw RangeError_timeZone
  | Some off =>
      match TimeClip date with
      | Fin q =>
          let t := Qtrunc q in
          let c := civilAt (off t) t in
          Ok (String.append (pad2 (c_hour c)) (String ":" (pad2 (c_minute c))))
      | _ => Throw RangeError_timeValue
      end
  end.

(** [getOffset(date, timeZone)], server.js lines 38-70. *)
Definition getOffset (date : JsDate) (timeZone : string) : result number :=
  parts ← Intl_formatToParts timeZone date;
  let values : gmap string string :=
    fold_left
      (fun (values : gmap string string) (p : part) =>
         if negb (String.eqb (part_type p) "literal")
         then <[part_type p := part_value p]> values
         else values)
      parts ∅ in
  let asUTC :=
    Date_UTC (Number_opt (values !! "year"))
             (nsub (Number_opt (values !! "month")) (ofZ 1))
             (Number_opt (values !! "day"))
             (Number_opt (values !! "hour"))
             (Number_opt (values !! "minute"))
             (Number_opt (values !! "second")) in
  Ok (nneg (ndiv (nsub (getTime date) asUTC) (ofZ 60000))).

Definition allZones : list string :=
  [ "America/Santiago";
    "America/New_York";
    "America/Argentina/Buenos_Aires";
    "America/Bogota";
    "America/Santo_Domingo" ].

(** The loop [for (const tz of zones) { results[tz] = format(dateUTC) }],
    server.js lines 134-142, 226-234 and 278-286. *)
Fixpoint formatZones (zones : list string) (dateUTC : JsDate)
  (results : gmap string string) : result (gmap string string) :=
  match zones with
  | [] => Ok results
  | tz :: rest =>
      formatted ← Intl_format tz dateUTC;
      formatZones rest dateUTC (<[tz := formatted]> results)
  end.

(** [calculateEpochFromTimezone(dateStr, timeStr, sourceTimezone)],
    server.js lines 352-376. *)
Definition calculateEpochFromTimezone (dateStr timeStr sourceTimezone : string)
  : result number :=
  let ymd := map Number (split "-" dateStr) in
  let year := ymd !! 0%nat in
  let month := ymd !! 1%nat in
  let day := ymd !! 2%nat in
  let hm := map Number (split ":" timeStr) in
  let hour := hm !! 0%nat in
  let minute := hm !! 1%nat in
  if falsy year || falsy month || falsy day
     || is_nullish hour || is_nullish minute
     || Number_isNaN year || Number_isNaN month || Number_isNaN day
     || Number_isNaN hour || Number_isNaN minute
  then Throw InvalidInput
  else
    let anchorUTC :=
      newDate (Date_UTC (ToNumber year) (nsub (ToNumber month) (ofZ 1))
                        (ToNumber day) (ToNumber hour) (ToNumber minute) (ofZ 0)) in
    offsetSource ← getOffset anchorUTC sourceTimezone;
    Ok (nsub (Date_UTC (ToNumber year) (nsub (ToNumber month) (ofZ 1))
                       (ToNumber day) (ToNumber hour) (ToNumber minute) (ofZ 0))
             (nmul (nmul offsetSource (ofZ 60)) (ofZ 1000))).

(** The first half of [convertTime], server.js lines 88-115: the value of
    [epochUTC]. *)
Definition convertTime_epochUTC (dateStr timeStr sourceTimezone : string)
  : result number :=
  let ymd := map Number (split "-" dateStr) in
  let year := ymd !! 0%nat in
  let month := ymd !! 1%nat in
  let day := ymd !! 2%nat in
  let hm := map Number (split ":" timeStr) in
  let hour := hm !! 0%nat in
  let minute := hm !! 1%nat in
  if falsy year || falsy month || falsy day
     || is_nullish hour || is_nullish minute
     || Number_isNaN year || Number_isNaN month || Number_isNaN day
     || Number_isNaN hour || Number_isNaN minute
  then Throw InvalidInput
  else
    let anchorUTC :=
      newDate (Date_UTC (ToNumber year) (nsub (ToNumber month) (ofZ 1))
                        (ToNumber day) (ToNumber hour) (ToNumber minute) (ofZ 0)) in
    offsetSource ← getOffset anchorUTC sourceTimezone;
    let epochUTC :=
      nsub (Date_UTC (ToNumber year) (nsub (ToNumber month) (ofZ 1))
                     (ToNumber day) (ToNumber hour) (ToNumber minute) (ofZ 0))
           (nmul (nmul offsetSource (ofZ 60)) (ofZ 1000)) in
    Ok epochUTC.

(** [convertTime(dateStr, timeStr, sourceTimezone)], server.js lines
    87-144. *)
Definition convertTime (dateStr timeStr sourceTimezone : string)
  : result (gmap string string) :=
  epochUTC ← convertTime_epochUTC dateStr timeStr sourceTimezone;
  let zones :=
    List.filter (fun tz => negb (String.eqb tz sourceTimezone)) allZones in
  let dateUTC := newDate epochUTC in
  formatZones zones dateUTC ∅.

(** The conversion of the [/convert-multi] handler, server.js lines
    264-286, which the spec calls [convertAll]. *)
Definition convertAll (date time sourceTimezone : string)
  : result (gmap string string) :=
  epochUTC ← calculateEpochFromTimezone date time sourceTimezone;
  formatZones allZones (newDate epochUTC) ∅.

End Converter.

(* ===================================================================== *)
(** ** A table of rules for concrete runs *)
(* ===================================================================== *)

(** The rules of the five zones during 2025, as published in the IANA
    database: Chile on summer time (UTC-3) until 2025-04-06T03:00Z and
    again from 2025-09-07T04:00Z, on UTC-4 in between; New York on UTC-5
    until 2025-03-09T07:00Z and again from 2025-11-02T06:00Z, on UTC-4 in
    between; Buenos Aires on UTC-3, Bogota on UTC-5 and Santo Domingo on
    UTC-4 throughout.  Any other identifier is unknown. *)
Definition santiago2025 (t : Z) : Z :=
  if t <? 1743908400000 then -180
  else if t <? 1757217600000 then -240 else -180.

Definition newYork2025 (t : Z) : Z :=
  if t <? 1741503600000 then -300
  else if t <? 1762063200000 then -240 else -300.

Definition tz2025 : TimeZoneDb := fun zone =>
  if String.eqb zone "America/Santiago" then Some santiago2025
  else if String.eqb zone "America/New_York" then Some newYork2025
  else if String.eqb zone "America/Argentina/Buenos_Aires" then Some (fun _ => -180)
  else if String.eqb zone "America/Bogota" then Some (fun _ => -300)
  else if String.eqb zone "America/Santo_Domingo" then Some (fun _ => -240)
  else None.

(* ===================================================================== *)
(** ** The HTTP handlers *)
(* ===================================================================== *)

(** What a handler passes to [JSON.stringify]: an object with an [error]
    text written in the code, an object with the message of a caught
    exception, a mapping from zone to time, or the object of [/current]. *)
Inductive responseBody : Type :=
  | ErrorText (message : string)
  | ErrorOf (e : error)
  | Conversions (results : gmap string string)
  | CurrentTimes (date time timezone : string) (conversions : gmap string string).

Record response : Type := {
  statusCode : Z;
  body : responseBody
}.

(** Truthiness of a query parameter that is a string or [undefined].  A
    parameter given more than once, which the URL parser turns into an
    array, is not part of the model. *)
Definition truthy (p : option string) : bool :=
  match p with
  | Some s => negb (String.eqb s EmptyString)
  | None => false
  end.

(** [p || fallback] *)
Definition orDefault (p : option string) (fallback : string) : string :=
  match p with
  | Some s => if String.eqb s EmptyString then fallback else s
  | None => fallback
  end.

(** A field below 1000 in three digits. *)
Definition pad3 (n : Z) : string := String (digitChar (n / 100)) (pad2 (n mod 100)).

(** The year of an ISO text: four digits from 0 to 9999, otherwise a sign
    and six digits. *)
Definition isoYear (y : Z) : string :=
  if (0 <=? y) && (y <=? 9999)
  then String.append (pad2 (y / 100)) (pad2 (y mod 100))
  else String (if y <? 0 then "-"%char else "+"%char)
         (String.append (pad2 (Z.abs y / 10000))
            (String.append (pad2 ((Z.abs y / 100) mod 100)) (pad2 (Z.abs y mod 100)))).

(** [Date.prototype.toISOString] of a time value in range. *)
Definition toISOString (t : Z) : string :=
  let c := civilAt 0 t in
  String.concat EmptyString
    [ isoYear (c_year c); "-"; pad2 (c_month c); "-"; pad2 (c_day c); "T";
      pad2 (c_hour c); ":"; pad2 (c_minute c); ":"; pad2 (c_second c); ".";
      pad3 (t mod 1000); "Z" ].

Section Handlers.

Variable tzdb : TimeZoneDb.

(** The [/convert-multi] endpoint, server.js lines 253-295, on the query
    parameters [date], [time] and [source]. *)
Definition handleConvertMulti (date time source : option string) : response :=
  if negb (truthy date) || negb (truthy time) then
    {| statusCode := 400;
       body := ErrorText "Missing date or time query parameters" |}
  else
    let sourceTimezone := orDefault source "America/Santiago" in
    match convertAll tzdb (orDefault date EmptyString) (orDefault time EmptyString)
            sourceTimezone with
    | Ok results => {| statusCode := 200; body := Conversions results |}
    | Throw e => {| statusCode := 400; body := ErrorOf e |}
    end.

(** The legacy [/convert] endpoint, server.js lines 298-317. *)
Definition handleConvert (date time source : option string) : response :=
  if negb (truthy date) || negb (truthy time) then
    {| statusCode := 400;
       body := ErrorText "Missing date or time query parameters" |}
  else
    let sourceTimezone := orDefault source "America/Santiago" in
    match convertTime tzdb (orDefault date EmptyString) (orDefault time EmptyString)
            sourceTimezone with
    | Ok result => {| statusCode := 200; body := Conversions result |}
    | Throw e => {| statusCode := 400; body := ErrorOf e |}
    end.

(** The [/current] endpoint, server.js lines 197-250, at the instant [now]
    of the request.  The formatting of [chileTime] stands before the [try],
    so an exception of it is not caught. *)
Definition handleCurrent (now : Z) : result response :=
  let currentDate := nth 0 (split "T" (toISOString now)) EmptyString in
  chileTime ← Intl_format tzdb "America/Santiago" (ofZ now);
  Ok (match (epochUTC ← calculateEpochFromTimezone tzdb currentDate chileTime
                          "America/Santiago";
             formatZones tzdb allZones (newDate epochUTC) ∅) with
      | Ok conversions =>
          {| statusCode := 200;
             body := CurrentTimes currentDate chileTime "America/Santiago"
                       conversions |}
      | Throw e => {| statusCode := 500; body := ErrorOf e |}
      end).

End Handlers.

(* ===================================================================== *)
(** ** The vocabulary of the statements *)
(* ===================================================================== *)

(** Day number of a calendar date as [MakeDay] computes it, for a month
    counted from 1. *)
Definition dayNumber (y m d : Z) : Z :=
  DayFromYear y + monthStart (InLeapYear y) (m - 1) + d - 1.

Definition fullYear (y : Z) : Z :=
  if (0 <=? y) && (y <=? 99) then 1900 + y else y.

(** The value [Date.UTC] builds from whole fields, before [TimeClip]. *)
Definition utcMillis (y mo d h mi s : Z) : Z :=
  let ym := fullYear y + mo / 12 in
  let mn := mo mod 12 in
  (DayFromYear ym + monthStart (InLeapYear ym) mn + d - 1) * msPerDay
  + (h * msPerHour + mi * msPerMinute + s * msPerSecond).

Definition inTimeRange (v : Z) : bool := Z.abs v <=? maxTime.

(** Offsets of a real zone stay within a day of UTC. *)
Definition boundedOffsets (off : Z -> Z) : Prop :=
  forall t, -1440 <= off t <= 1440.

(** Where the fields are read back as the same calendar date: from the
    year 100 on, within the range of time values. *)
Definition minModern : Z := DayFromYear 100 * msPerDay.

(** A year in four digits. *)
Definition pad4 (y : Z) : string :=
  String (digitChar (y / 1000)) (String (digitChar ((y / 100) mod 10)) (pad2 (y mod 100))).

(** The texts ["YYYY-MM-DD"] and ["HH:MM"] of a calendar date and a clock
    time. *)
Definition dateString (y m d : Z) : string :=
  String.append (pad4 y) (String "-" (String.append (pad2 m) (String "-" (pad2 d)))).

Definition timeString (h mi : Z) : string :=
  String.append (pad2 h) (String ":" (pad2 mi)).

(** The components of a request within the ranges of the data model.  The
    years start at 101: [Date.UTC] reads a year from 0 to 99 as 1900 + year,
    both in the converter and when [getOffset] reads back the year the
    formatter shows, and a day early in the year 100 is shown in the year 99
    west of Greenwich. *)
Definition validCivil (y m d h mi : Z) : Prop :=
  101 <= y <= 9999 /\ 1 <= m <= 12 /\ 1 <= d <= 31
  /\ 0 <= h <= 23 /\ 0 <= mi <= 59.

(** The provisional instant of a request: its fields read as UTC. *)
Definition anchorOf (y m d h mi : Z) : Z := utcMillis y (m - 1) d h mi 0.

(** Instants within a day of the provisional instants of well-formed
    requests: every instant the converter handles on such a request. *)
Definition safeInstant (t : Z) : Prop :=
  (DayFromYear 101 - 1) * msPerDay <= t <= (DayFromYear 9999 + 367) * msPerDay.

(** The ["HH:MM"] a clock [off] minutes ahead of UTC shows at [t]. *)
Definition hhmmAt (off t : Z) : string :=
  String.append (pad2 (c_hour (civilAt off t)))
                (String ":" (pad2 (c_minute (civilAt off t)))).

Section Clocks.

Variable tzdb : TimeZoneDb.

(** What the formatter shows in a zone at [t]; the empty text stands for a
    zone the runtime does not know. *)
Definition clockOf (zone : string) (t : Z) : string :=
  match tzdb zone with
  | Some off => hhmmAt (off t) t
  | None => EmptyString
  end.

Definition supportedZone (zone : string) : Prop :=
  exists off, tzdb zone = Some off /\ boundedOffsets off.

Definition supportsAll : Prop :=
  forall zone, In zone allZones -> supportedZone zone.

End Clocks.

(** Component [i] of a text split at [sep], as [.map(Number)] leaves it;
    [None] where the array has no such element. *)
Definition component (sep : ascii) (s : string) (i : nat) : option number :=
  map Number (split sep s) !! i.

(** The condition under which both entry points throw. *)
Definition rejects (dateStr timeStr : string) : bool :=
  falsy (component "-" dateStr 0) || falsy (component "-" dateStr 1)
  || falsy (component "-" dateStr 2)
  || is_nullish (component ":" timeStr 0) || is_nullish (component ":" timeStr 1)
  || Number_isNaN (component "-" dateStr 0) || Number_isNaN (component "-" dateStr 1)
  || Number_isNaN (component "-" dateStr 2)
  || Number_isNaN (component ":" timeStr 0) || Number_isNaN (component ":" timeStr 1).

(** The value of [Date.UTC(year, month - 1, day, hour, minute, 0)] on the
    components of a request. *)
Definition anchorNumber (dateStr timeStr : string) : number :=
  Date_UTC (ToNumber (component "-" dateStr 0))
           (nsub (ToNumber (component "-" dateStr 1)) (ofZ 1))
           (ToNumber (component "-" dateStr 2))
           (ToNumber (component ":" timeStr 0))
           (ToNumber (component ":" timeStr 1)) (ofZ 0).

(** The two statements after the validation. *)
Definition resolveAt (tzdb : TimeZoneDb) (anchor : number) (zone : string)
  : result number :=
  offsetSource ← getOffset tzdb (newDate anchor) zone;
  Ok (nsub anchor (nmul (nmul offsetSource (ofZ 60)) (ofZ 1000))).

(** The three ways a component fails the validation. *)
Definition isMissing (v : option number) : Prop := v = None.
Definition isNotANumber (v : option number) : Prop := v = Some NaN.
Definition isZero (v : option number) : Prop :=
  exists q, v = Some (Fin q) /\ (q == 0)%Q.

(** A year, month or day is refused when missing, [NaN] or zero; an hour or
    a minute when missing or [NaN]. *)
Definition badDatePart (v : option number) : Prop :=
  isMissing v \/ isNotANumber v \/ isZero v.
Definition badTimePart (v : option number) : Prop :=
  isMissing v \/ isNotANumber v.

(** The instants whose UTC date has a year from 101 to 9999. *)
Definition modernInstant (now : Z) : Prop :=
  DayFromYear 101 * msPerDay <= now < DayFromYear 10000 * msPerDay.

(** The provisional instant of [/current]: the UTC date of [now] with the
    clock the source zone shows at [now], read as a UTC time. *)
Definition currentAnchor (off : Z -> Z) (now : Z) : Z :=
  now - now mod msPerMinute + off now * msPerMinute
  + (now / msPerDay - (now + off now * msPerMinute) / msPerDay) * msPerDay.

(** The table of 2025 in a runtime that does not know Bogota. *)
Definition tz2025_without_Bogota : TimeZoneDb := fun zone =>
  if String.eqb zone "America/Bogota" then None else tz2025 zone.

(* ===================================================================== *)
(** ** Runs of the definitions *)
(* ===================================================================== *)

Example tests_Number :
  (Number "2025", Number "01", Number "", Number " 12 ", Number "abc",
   Number "1e3", Number "0x10", Number "-5", Number "2.5", Number "Infinity",
   Number ".", Number "5.", Number "1e", Number "12px", Number "0x",
   Number "15.99999999999999999999", Number "0.1", Number "9007199254740993",
   Number "1e400", Number "-1e400", Number "1e-400")
  = (ofZ 2025, ofZ 1, ofZ 0, ofZ 12, NaN,
     ofZ 1000, ofZ 16, ofZ (-5), Fin (5 # 2), Inf false,
     NaN, ofZ 5, NaN, NaN, NaN,
     ofZ 16, Fin (3602879701896397 # 36028797018963968), ofZ 9007199254740992,
     Inf false, Inf true, ofZ 0).
Proof. vm_compute. reflexivity. Qed.

Example tests_round64 :
  (round64 (1 # 10), round64 (-36001 # 120), round64 (inject_Z (2 ^ 53 + 1)),
   round64 (inject_Z (2 ^ 53 + 3)), round64 (1 # Pos.pow 2 1075),
   round64 (3 # Pos.pow 2 1075), round64 (inject_Z (2 ^ 1024 - 2 ^ 970)),
   round64 (inject_Z (2 ^ 1024 - 2 ^ 970 - 1)), round64 0, round64 (inject_Z (-5)),
   ndiv (ofZ 1) (ofZ 3), nmul (Number "0.1") (ofZ 3), nsub (Number "0.1") (ofZ 1))
  = (Fin (3602879701896397 # 36028797018963968),
     Fin (-2638901207437585 # 8796093022208),
     ofZ (2 ^ 53), ofZ (2 ^ 53 + 4), Fin 0, Fin (1 # Pos.pow 2 1073),
     Inf false, ofZ (2 ^ 1024 - 2 ^ 971), Fin 0, ofZ (-5),
     Fin (6004799503160661 # 18014398509481984),
     Fin (1351079888211149 # 4503599627370496),
     Fin (-8106479329266893 # 9007199254740992)).
Proof. vm_compute. reflexivity. Qed.

Example tests_Date_UTC :
  (Date_UTC (ofZ 1970) (ofZ 0) (ofZ 1) (ofZ 0) (ofZ 0) (ofZ 0),
   Date_UTC (ofZ 2025) (ofZ 0) (ofZ 15) (ofZ 14) (ofZ 30) (ofZ 0),
   Date_UTC (ofZ 2025) (ofZ 12) (ofZ 1) (ofZ 0) (ofZ 0) (ofZ 0),
   Date_UTC (ofZ 2024) (ofZ 1) (ofZ 29) (ofZ 25) (ofZ 61) (ofZ 0),
   Date_UTC (ofZ 50) (ofZ 0) (ofZ 1) (ofZ 0) (ofZ 0) (ofZ 0),
   Date_UTC (ofZ 275760) (ofZ 8) (ofZ 13) (ofZ 0) (ofZ 0) (ofZ 0),
   Date_UTC (ofZ 275760) (ofZ 8) (ofZ 14) (ofZ 0) (ofZ 0) (ofZ 0),
   Date_UTC (ofZ 2025) NaN (ofZ 1) (ofZ 0) (ofZ 0) (ofZ 0))
  = (ofZ 0, ofZ 1736951400000, ofZ 1767225600000, ofZ 1709258460000,
     ofZ (-631152000000), ofZ 8640000000000000, NaN, NaN).
Proof. vm_compute. reflexivity. Qed.

Example tests_civil :
  (civil_from_days 0, civil_from_days (-1), civil_from_days 20103,
   civil_from_days 19782, civil_from_days (-719468), civil_from_days 2932896,
   civil_from_days (-25509), showNat 2025, showNat 7, showNat 0, showNat 275760,
   pad2 7, pad2 30)
  = ((1970, 1, 1), (1969, 12, 31), (2025, 1, 15), (2024, 2, 29),
     (0, 3, 1), (9999, 12, 31), (1900, 2, 28),
     "2025", "7", "0", "275760", "07", "30").
Proof. vm_compute. reflexivity. Qed.

Example tests_tz2025 :
  (Date_UTC (ofZ 2025) (ofZ 3) (ofZ 6) (ofZ 3) (ofZ 0) (ofZ 0),
   Date_UTC (ofZ 2025) (ofZ 8) (ofZ 7) (ofZ 4) (ofZ 0) (ofZ 0),
   Date_UTC (ofZ 2025) (ofZ 2) (ofZ 9) (ofZ 7) (ofZ 0) (ofZ 0),
   Date_UTC (ofZ 2025) (ofZ 10) (ofZ 2) (ofZ 6) (ofZ 0) (ofZ 0))
  = (ofZ 1743908400000, ofZ 1757217600000, ofZ 1741503600000, ofZ 1762063200000).
Proof. vm_compute. reflexivity. Qed.

Example tests_getOffset :
  (getOffset tz2025 (ofZ 1736951400000) "America/Santiago",
   getOffset tz2025 (ofZ 1736951400000) "America/New_York",
   getOffset tz2025 (ofZ 1736951400500) "America/Bogota",
   getOffset tz2025 NaN "America/Bogota",
   getOffset tz2025 (ofZ 0) "Mars/Olympus")
  = (Ok (ofZ (-180)), Ok (ofZ (-300)), Ok (Fin (-2638901207437585 # 8796093022208)),
     Throw RangeError_timeValue, Throw RangeError_timeZone).
Proof. vm_compute. reflexivity. Qed.

Example tests_convert :
  (calculateEpochFromTimezone tz2025 "2025-01-15" "14:30" "America/Santiago",
   (λ r, match r with Ok m => Ok (map_to_list m) | Throw e => Throw e end)
     (convertTime tz2025 "2025-01-15" "14:30" "America/Santiago"),
   calculateEpochFromTimezone tz2025 "2025-13-01" "14:30" "America/Santiago",
   calculateEpochFromTimezone tz2025 "" "14:30" "America/Santiago",
   calculateEpochFromTimezone tz2025 "2025-01-15" "14" "America/Santiago",
   calculateEpochFromTimezone tz2025 "2025-01-15" "14:" "America/Santiago",
   calculateEpochFromTimezone tz2025 "275760-09-14" "00:00" "America/Santiago")
  = (Ok (ofZ 1736962200000),
     Ok [("America/Santo_Domingo", "13:30");
         ("America/Argentina/Buenos_Aires", "14:30");
         ("America/New_York", "12:30"); ("America/Bogota", "12:30")],
     Ok (ofZ 1767288600000), Throw InvalidInput, Throw InvalidInput,
     Ok (ofZ 1736960400000), Throw RangeError_timeValue).
Proof. vm_compute. reflexivity. Qed.

Example tests_strings :
  (dateString 2025 1 15, timeString 14 30, dateString 101 12 31, timeString 0 0,
   split "-" "2025-01-15", split ":" "14:30", split "-" "", split ":" "14",
   split ":" "14:", split "-" "a--b")
  = ("2025-01-15", "14:30", "0101-12-31", "00:00",
     ["2025"; "01"; "15"], ["14"; "30"], [""], ["14"], ["14"; ""], ["a"; ""; "b"]).
Proof. vm_compute. reflexivity. Qed.

Example tests_handlers :
  (toISOString 1736951400500, toISOString (-62198755200000),
   toISOString 253402300800000, toISOString 0,
   statusCode (handleConvertMulti tz2025 (Some "2025-01-15") None None),
   statusCode (handleConvertMulti tz2025 (Some "2025-01-15") (Some "14:30") None),
   statusCode (handleConvert tz2025 (Some "2025-01-15") (Some "14:30") (Some "Mars/Olympus")),
   handleConvert tz2025 (Some "") (Some "14:30") None,
   handleConvert tz2025 (Some "x") (Some "14:30") None)
  = ("2025-01-15T14:30:00.500Z", "-000001-01-01T00:00:00.000Z",
     "+010000-01-01T00:00:00.000Z", "1970-01-01T00:00:00.000Z",
     400, 200, 400,
     {| statusCode := 400; body := ErrorText "Missing date or time query parameters" |},
     {| statusCode := 400; body := ErrorOf InvalidInput |}).
Proof. vm_compute. reflexivity. Qed.

(* ===================================================================== *)
(** ** Rounding to doubles, and the arithmetic of whole numbers *)
(* ===================================================================== *)

Lemma Qred_inject_Z (z : Z) : Qred (inject_Z z) = inject_Z z.
Proof.
  apply Qcanon.Qred_identity. unfold inject_Z. simpl. apply Z.gcd_1_r.
Qed.

Lemma Qred_of_int (q : Q) (z : Z) : (q == inject_Z z)%Q -> Qred q = inject_Z z.
Proof.
  intros H. rewrite (Qred_complete _ _ H). apply Qred_inject_Z.
Qed.

Lemma Qtrunc_inject_Z (z : Z) : Qtrunc (inject_Z z) = z.
Proof. unfold Qtrunc, inject_Z. simpl. apply Z.quot_1_r. Qed.

Lemma rne_exact (c b : Z) : 0 < b -> rne (c * b) b = c.
Proof.
  intros Hb. unfold rne.
  rewrite Z.div_mul by lia. rewrite Z.mod_mul by lia.
  replace (2 * 0 <? b) with true by (symmetry; apply Z.ltb_lt; lia).
  reflexivity.
Qed.



Lemma round64_grid_ext (q q' : Q) :
  (q == q')%Q -> round64_grid q = round64_grid q'.
Proof.
  intros H. unfold round64_grid. rewrite (Qred_complete _ _ H). reflexivity.
Qed.

Lemma round64_ext (q q' : Q) : (q == q')%Q -> round64 q = round64 q'.
Proof.
  intros H. unfold round64, round64_grid.
  rewrite (Qred_complete _ _ H). reflexivity.
Qed.

(** Whole numbers up to [2^53] in magnitude are doubles. *)
Lemma round64_grid_ofZ (z : Z) :
  Z.abs z <= 2 ^ 53 -> round64_grid (inject_Z z) = ofZ z.
Proof.
  intros Hz. unfold round64_grid, ofZ. rewrite Qred_inject_Z.
  unfold inject_Z. cbn [Qnum Qden].
  rewrite Z.div_1_r, Z.mul_1_l.
  destruct (Z.eq_dec z 0) as [-> | Hne]; [vm_compute; reflexivity |].
  assert (Hpos : 0 < Z.abs z) by lia.
  rewrite Z.log2_mul_pow2 by lia.
  pose proof (Z.log2_nonneg (Z.abs z)) as Hl0.
  assert (Hl : Z.log2 (Z.abs z) <= 53).
  { change 53 with (Z.log2 (2 ^ 53)). apply Z.log2_le_mono. exact Hz. }
  assert (Hdiv : exists c, Z.abs z * 2 ^ 1074 = c * 2 ^ (Z.log2 (Z.abs z) + 1022)).
  { destruct (Z.eq_dec (Z.log2 (Z.abs z)) 53) as [E | E].
    - assert (H : Z.abs z = 2 ^ 53).
      { pose proof (Z.log2_spec (Z.abs z) Hpos) as Hs.
        rewrite E in Hs. lia. }
      exists (2 ^ 52). rewrite E, H. reflexivity.
    - exists (Z.abs z * 2 ^ (52 - Z.log2 (Z.abs z))).
      rewrite <- Z.mul_assoc, <- Z.pow_add_r by lia.
      do 2 f_equal. lia. }
  replace (Z.max (1074 + Z.log2 (Z.abs z) - 52) 0)
    with (Z.log2 (Z.abs z) + 1022) by lia.
  destruct Hdiv as [c Hc]. rewrite Hc.
  rewrite rne_exact by (apply Z.pow_pos_nonneg; lia).
  rewrite <- Hc.
  replace (2 ^ 2098 <=? Z.abs z * 2 ^ 1074) with false.
  2: { symmetry. apply Z.leb_gt.
       apply Z.le_lt_trans with (2 ^ 53 * 2 ^ 1074); [| reflexivity].
       apply Z.mul_le_mono_nonneg_r; [apply Z.pow_nonneg; lia | exact Hz]. }
  f_equal. apply Qred_of_int.
  unfold Qeq, inject_Z. cbn [Qnum Qden].
  rewrite Z2Pos.id by (apply Z.pow_pos_nonneg; lia).
  destruct (z <? 0) eqn:E; [apply Z.ltb_lt in E | apply Z.ltb_ge in E]; lia.
Qed.

(** The rounding of the operations is the count of units. *)
Lemma round64_shortcut (q : Q) : round64 q = round64_grid q.
Proof.
  unfold round64.
  destruct ((Z.pos (Qden (Qred q)) =? 1) && (Z.abs (Qnum (Qred q)) <=? 2 ^ 53))
    eqn:E; [| reflexivity].
  apply andb_true_iff in E. destruct E as [Hd Hn].
  apply Z.eqb_eq in Hd. apply Z.leb_le in Hn.
  rewrite (round64_grid_ext q (Qred q)) by (symmetry; apply Qred_correct).
  destruct (Qred q) as [n d]. cbn [Qnum Qden] in Hd, Hn.
  assert (d = 1%positive) by lia. subst d.
  symmetry. exact (round64_grid_ofZ n Hn).
Qed.

Lemma round64_ofZ (z : Z) : Z.abs z <= 2 ^ 53 -> round64 (inject_Z z) = ofZ z.
Proof. intros Hz. rewrite round64_shortcut. apply round64_grid_ofZ. exact Hz. Qed.



Lemma nsub_ofZ (a b : Z) :
  Z.abs (a - b) <= 2 ^ 53 -> nsub (ofZ a) (ofZ b) = ofZ (a - b).
Proof.
  intros H. rewrite <- (round64_ofZ _ H). unfold nsub, ofZ.
  apply round64_ext.
  unfold Z.sub. rewrite inject_Z_plus, inject_Z_opp. reflexivity.
Qed.

Lemma nmul_ofZ (a b : Z) :
  Z.abs (a * b) <= 2 ^ 53 -> nmul (ofZ a) (ofZ b) = ofZ (a * b).
Proof.
  intros H. rewrite <- (round64_ofZ _ H). unfold nmul, ofZ.
  apply round64_ext. rewrite inject_Z_mult. reflexivity.
Qed.

Lemma nneg_ofZ (a : Z) : nneg (ofZ a) = ofZ (- a).
Proof.
  unfold nneg, ofZ. f_equal. apply Qred_of_int.
  rewrite inject_Z_opp. reflexivity.
Qed.

Lemma ndiv_ofZ_exact (a b : Z) :
  b <> 0 -> Z.abs a <= 2 ^ 53 -> ndiv (ofZ (a * b)) (ofZ b) = ofZ a.
Proof.
  intros Hb Ha. rewrite <- (round64_ofZ _ Ha). unfold ndiv, ofZ.
  assert (Hz : Qis_zero (inject_Z b) = false).
  { unfold Qis_zero, inject_Z. simpl. apply Z.eqb_neq. exact Hb. }
  rewrite Hz. apply round64_ext.
  rewrite inject_Z_mult. field.
  intros H. apply Hb. unfold Qeq, inject_Z in H. simpl in H. lia.
Qed.

(* ===================================================================== *)
(** ** [Number] reads back what the formatter and the clients write *)
(* ===================================================================== *)

Lemma digitChar_spec (d : Z) :
  0 <= d <= 9 -> isDigit (digitChar d) = true /\ digitVal (digitChar d) = d.
Proof.
  intros H.
  assert (Hd : d = 0 \/ d = 1 \/ d = 2 \/ d = 3 \/ d = 4 \/ d = 5 \/ d = 6
               \/ d = 7 \/ d = 8 \/ d = 9) by lia.
  repeat (destruct Hd as [Hd | Hd]; [subst d; split; reflexivity |]).
  subst d; split; reflexivity.
Qed.

Lemma isDigit_not_white (c : ascii) : isDigit c = true -> isWhiteSpace c = false.
Proof.
  unfold isDigit, isWhiteSpace. intros H.
  apply andb_true_iff in H. destruct H as [H1 H2].
  apply Z.leb_le in H1. apply Z.leb_le in H2.
  repeat rewrite orb_false_iff. repeat split.
  - apply andb_false_iff. right. apply Z.leb_gt. lia.
  - apply Z.eqb_neq. lia.
  - apply Z.eqb_neq. lia.
Qed.

Lemma isDigit_code_ne (c : ascii) (k : Z) :
  isDigit c = true -> k < 48 \/ 57 < k -> (code c =? k) = false.
Proof.
  unfold isDigit. intros H Hk.
  apply andb_true_iff in H. destruct H as [H1 H2].
  apply Z.leb_le in H1. apply Z.leb_le in H2.
  apply Z.eqb_neq. lia.
Qed.

Lemma dropWhile_digits (l : list ascii) :
  forallb isDigit l = true -> dropWhile isWhiteSpace l = l.
Proof.
  destruct l as [| c r]; simpl; [reflexivity |].
  intros H. apply andb_true_iff in H. destruct H as [Hc _].
  rewrite (isDigit_not_white c Hc). reflexivity.
Qed.

Lemma trim_digits (l : list ascii) : forallb isDigit l = true -> trim l = l.
Proof.
  intros H. unfold trim. rewrite (dropWhile_digits l H).
  rewrite dropWhile_digits.
  - apply rev_involutive.
  - rewrite forallb_forall in *. intros c Hc. apply H. apply in_rev. exact Hc.
Qed.

Lemma span_all {A : Type} (p : A -> bool) (l : list A) :
  forallb p l = true -> span p l = (l, []).
Proof.
  induction l as [| x r IH]; simpl; [reflexivity |].
  intros H. apply andb_true_iff in H. destruct H as [Hx Hr].
  rewrite Hx, (IH Hr). reflexivity.
Qed.

Lemma Qpow10_0 : Qpow10 0 = 1%Q.
Proof. reflexivity. Qed.

(** A literal that is a whole number up to [2^53]. *)
Lemma roundLiteral_int (m : Z) :
  0 <= m < 2 ^ 53 -> roundLiteral false (inject_Z m * Qpow10 0) = ofZ m.
Proof.
  intros Hm. rewrite Qpow10_0. unfold roundLiteral.
  rewrite <- (round64_ofZ m) by lia.
  apply round64_ext. ring.
Qed.

Lemma ascii_eqb_code (a b : ascii) : code a <> code b -> Ascii.eqb a b = false.
Proof.
  intros H. apply Ascii.eqb_neq. intros ->. apply H. reflexivity.
Qed.

Lemma digits_not_infinity (c : ascii) (r : list ascii) :
  isDigit c = true -> list_ascii_eqb (c :: r) infinityLit = false.
Proof.
  intros Hc. unfold list_ascii_eqb, infinityLit. simpl.
  rewrite ascii_eqb_code; [reflexivity |].
  unfold isDigit in Hc. apply andb_true_iff in Hc. destruct Hc as [H1 H2].
  apply Z.leb_le in H1. apply Z.leb_le in H2.
  change (code "I"%char) with 73. lia.
Qed.

(** [Number] on a non-empty run of decimal digits is its value. *)
Lemma Number_digits (ds : list ascii) :
  ds <> [] ->
  forallb isDigit ds = true ->
  0 <= digitsValue 10 (map digitVal ds) < 2 ^ 53 ->
  Number (string_of_list_ascii ds) = ofZ (digitsValue 10 (map digitVal ds)).
Proof.
  intros Hne Hds Hv. unfold Number.
  rewrite list_ascii_of_string_of_list_ascii, (trim_digits ds Hds).
  destruct ds as [| c0 rest]; [congruence |].
  pose proof Hds as Hall. simpl in Hds.
  apply andb_true_iff in Hds. destruct Hds as [Hc0 Hrest].
  unfold strNumericLiteral.
  assert (Hradix :
    match rest with
    | x :: ds =>
        if code c0 =? 48 then
          if (code x =? 120) || (code x =? 88) then Some (16, ds)
          else if (code x =? 111) || (code x =? 79) then Some (8, ds)
          else if (code x =? 98) || (code x =? 66) then Some (2, ds)
          else None
        else None
    | [] => None
    end = None).
  { destruct rest as [| x ds]; [reflexivity |].
    simpl in Hrest. apply andb_true_iff in Hrest. destruct Hrest as [Hx _].
    rewrite !(isDigit_code_ne x) by (auto; lia). simpl.
    destruct (code c0 =? 48); reflexivity. }
  rewrite Hradix.
  rewrite !(isDigit_code_ne c0) by (auto; lia).
  rewrite (digits_not_infinity c0 rest Hc0).
  unfold unsignedDecimal. rewrite (span_all isDigit _ Hall).
  simpl exponentPart. cbv iota beta.
  rewrite app_nil_r. simpl length. rewrite Z.sub_0_r.
  apply roundLiteral_int. exact Hv.
Qed.

Lemma digitsValue_snoc (l : list Z) (d : Z) :
  digitsValue 10 (l ++ [d]) = digitsValue 10 l * 10 + d.
Proof. unfold digitsValue. rewrite fold_left_app. reflexivity. Qed.

Lemma decDigits_spec (fuel : nat) (n : Z) :
  0 <= n < 10 ^ Z.of_nat (S fuel) ->
  decDigits fuel n <> []
  /\ forallb isDigit (decDigits fuel n) = true
  /\ digitsValue 10 (map digitVal (decDigits fuel n)) = n.
Proof.
  revert n. induction fuel as [| f IH]; intros n Hn.
  - change (10 ^ Z.of_nat 1) with 10 in Hn.
    simpl decDigits. rewrite Z.mod_small by lia.
    destruct (digitChar_spec n) as [Hd Hv]; [lia |].
    simpl. rewrite Hd, Hv. repeat split; auto; discriminate.
  - simpl decDigits. destruct (n <? 10) eqn:Hlt.
    + apply Z.ltb_lt in Hlt.
      destruct (digitChar_spec n) as [Hd Hv]; [lia |].
      simpl. rewrite Hd, Hv. repeat split; auto; discriminate.
    + apply Z.ltb_ge in Hlt.
      assert (Hq : 0 <= n / 10 < 10 ^ Z.of_nat (S f)).
      { split; [apply Z.div_pos; lia |].
        apply Z.div_lt_upper_bound; [lia |].
        replace (Z.of_nat (S (S f))) with (Z.succ (Z.of_nat (S f))) in Hn by lia.
        rewrite Z.pow_succ_r in Hn by lia. lia. }
      destruct (IH _ Hq) as (Hne & Hall & Hval).
      destruct (digitChar_spec (n mod 10)) as [Hd Hv].
      { pose proof (Z.mod_pos_bound n 10). lia. }
      repeat split.
      * intros H. apply app_eq_nil in H. destruct H as [_ H]. discriminate.
      * rewrite forallb_app, Hall. simpl. rewrite Hd. reflexivity.
      * rewrite map_app. simpl map. rewrite digitsValue_snoc, Hval, Hv.
        pose proof (Z.div_mod n 10). lia.
Qed.

Lemma log2_fuel (n : Z) : 0 <= n -> n < 10 ^ Z.of_nat (S (Z.to_nat (Z.log2 n))).
Proof.
  intros Hn.
  assert (Hl : 0 <= Z.log2 n) by apply Z.log2_nonneg.
  replace (Z.of_nat (S (Z.to_nat (Z.log2 n)))) with (Z.succ (Z.log2 n)) by lia.
  destruct (Z.eq_dec n 0) as [-> | Hz].
  - simpl. lia.
  - assert (H2 : n < 2 ^ Z.succ (Z.log2 n)) by (apply Z.log2_spec; lia).
    assert (H10 : 2 ^ Z.succ (Z.log2 n) <= 10 ^ Z.succ (Z.log2 n))
      by (apply Z.pow_le_mono_l; lia).
    lia.
Qed.

Lemma Number_showNat (n : Z) : 0 <= n < 2 ^ 53 -> Number (showNat n) = ofZ n.
Proof.
  intros Hn. unfold showNat.
  destruct (decDigits_spec (Z.to_nat (Z.log2 n)) n) as (Hne & Hall & Hval).
  { split; [lia | apply log2_fuel; lia]. }
  rewrite Number_digits.
  - rewrite Hval. reflexivity.
  - exact Hne.
  - exact Hall.
  - rewrite Hval. exact Hn.
Qed.

Lemma Number_pad2 (n : Z) : 0 <= n < 100 -> Number (pad2 n) = ofZ n.
Proof.
  intros Hn.
  destruct (digitChar_spec (n / 10)) as [Hd1 Hv1].
  { split; [apply Z.div_pos; lia | apply Z.lt_succ_r; apply Z.div_lt_upper_bound; lia]. }
  destruct (digitChar_spec (n mod 10)) as [Hd2 Hv2].
  { pose proof (Z.mod_pos_bound n 10). lia. }
  change (pad2 n)
    with (string_of_list_ascii [digitChar (n / 10); digitChar (n mod 10)]).
  assert (Hval : digitsValue 10 (map digitVal [digitChar (n / 10); digitChar (n mod 10)]) = n).
  { unfold digitsValue. simpl. rewrite Hv1, Hv2. pose proof (Z.div_mod n 10). lia. }
  rewrite Number_digits.
  - rewrite Hval. reflexivity.
  - discriminate.
  - simpl. rewrite Hd1, Hd2. reflexivity.
  - rewrite Hval. lia.
Qed.

(* ===================================================================== *)
(** ** The calendar: [MakeDay] inverts [civil_from_days] *)
(* ===================================================================== *)

Ltac Zify.zify_post_hook ::= Z.to_euclidean_division_equations.

Lemma DayFromYear_next (y : Z) :
  DayFromYear (y + 1) = DayFromYear y + 365 + (if InLeapYear y then 1 else 0).
Proof.
  unfold DayFromYear, InLeapYear.
  destruct (y mod 4 =? 0) eqn:H4; simpl.
  - destruct (y mod 100 =? 0) eqn:H100; simpl.
    + destruct (y mod 400 =? 0) eqn:H400; simpl;
        rewrite ?Z.eqb_eq, ?Z.eqb_neq in *; lia.
    + rewrite ?Z.eqb_eq, ?Z.eqb_neq in *. lia.
  - rewrite ?Z.eqb_eq, ?Z.eqb_neq in *. lia.
Qed.

(** The year found is the one the day falls in. *)
Lemma YearFromDay_spec (day : Z) :
  DayFromYear (YearFromDay day) <= day < DayFromYear (YearFromDay day + 1).
Proof.
  unfold YearFromDay.
  set (y0 := 1970 + day * 400 / 146097).
  assert (Hlo : DayFromYear (y0 - 1) <= day)
    by (unfold y0, DayFromYear; lia).
  assert (Hhi : day < DayFromYear (y0 + 2))
    by (unfold y0, DayFromYear; lia).
  destruct (DayFromYear (y0 + 1) <=? day) eqn:H1.
  - apply Z.leb_le in H1. replace (y0 + 1 + 1) with (y0 + 2) by ring. lia.
  - apply Z.leb_gt in H1.
    destruct (day <? DayFromYear y0) eqn:H0.
    + apply Z.ltb_lt in H0. replace (y0 - 1 + 1) with y0 by ring. lia.
    + apply Z.ltb_ge in H0. lia.
Qed.

Lemma civil_from_days_spec (z : Z) :
  forall y m d, civil_from_days z = (y, m, d) ->
  dayNumber y m d = z /\ 1 <= m <= 12 /\ 1 <= d <= 31
  /\ DayFromYear y <= z < DayFromYear (y + 1).
Proof.
  intros y m d E. unfold civil_from_days in E.
  pose proof (YearFromDay_spec z) as Hy.
  set (yy := YearFromDay z) in *.
  rewrite DayFromYear_next in Hy.
  set (dwy := z - DayFromYear yy) in *.
  injection E as <- <- <-.
  rewrite DayFromYear_next.
  unfold dayNumber. replace (MonthFromDay (InLeapYear yy) dwy + 1 - 1)
    with (MonthFromDay (InLeapYear yy) dwy) by ring.
  assert (Hdwy : 0 <= dwy < 365 + (if InLeapYear yy then 1 else 0))
    by (unfold dwy; lia).
  split; [unfold dwy; ring |].
  split; [| split; [| lia]].
  - unfold MonthFromDay.
    repeat match goal with
           | |- context [if ?b then _ else _] => destruct b
           end; lia.
  - unfold MonthFromDay.
    destruct (InLeapYear yy);
    repeat match goal with
           | |- context [?a <? ?b] => destruct (Z.ltb_spec a b)
           end; simpl; lia.
Qed.

(* ===================================================================== *)
(** ** [Date.UTC] and [new Date] on whole numbers *)
(* ===================================================================== *)

Lemma TimeClip_ofZ (v : Z) :
  TimeClip (ofZ v) = if inTimeRange v then ofZ v else NaN.
Proof.
  unfold TimeClip, ofZ, inTimeRange.
  rewrite Qtrunc_inject_Z.
  replace (Qle_bool (Qabs (inject_Z v)) (inject_Z maxTime))
    with (Z.abs v <=? maxTime); [reflexivity |].
  unfold Qle_bool, Qabs, inject_Z. simpl Qnum. simpl Qden.
  rewrite !Z.mul_1_r. reflexivity.
Qed.

Lemma newDate_ofZ (t : Z) : inTimeRange t = true -> newDate (ofZ t) = ofZ t.
Proof. intros H. unfold newDate. rewrite TimeClip_ofZ, H. reflexivity. Qed.

Lemma MakeFullYear_ofZ (y : Z) : MakeFullYear (ofZ y) = ofZ (fullYear y).
Proof.
  unfold MakeFullYear, ofZ, fullYear. rewrite Qtrunc_inject_Z.
  destruct ((0 <=? y) && (y <=? 99)); reflexivity.
Qed.

Lemma Date_UTC_ofZ (y mo d h mi s : Z) :
  Date_UTC (ofZ y) (ofZ mo) (ofZ d) (ofZ h) (ofZ mi) (ofZ s) =
  if inTimeRange (utcMillis y mo d h mi s)
  then ofZ (utcMillis y mo d h mi s) else NaN.
Proof.
  unfold Date_UTC. rewrite MakeFullYear_ofZ.
  unfold MakeDay, MakeTime, MakeDate, ofZ.
  rewrite !Qtrunc_inject_Z.
  rewrite (Qred_of_int _ (utcMillis y mo d h mi s)).
  - apply TimeClip_ofZ.
  - unfold utcMillis. rewrite <- inject_Z_mult, <- inject_Z_plus.
    rewrite Z.add_0_r. reflexivity.
Qed.

(* ===================================================================== *)
(** ** The fields the formatter reports *)
(* ===================================================================== *)

Lemma civilAt_fields (off t : Z) :
  let c := civilAt off t in
  let local := t + off * msPerMinute in
  dayNumber (c_year c) (c_month c) (c_day c) = local / msPerDay
  /\ DayFromYear (c_year c) <= local / msPerDay < DayFromYear (c_year c + 1)
  /\ 1 <= c_month c <= 12 /\ 1 <= c_day c <= 31
  /\ 0 <= c_hour c < 24 /\ 0 <= c_minute c < 60 /\ 0 <= c_second c < 60
  /\ c_hour c * msPerHour + c_minute c * msPerMinute + c_second c * msPerSecond
     = local mod msPerDay - local mod msPerSecond.
Proof.
  unfold civilAt. cbv zeta.
  set (local := t + off * msPerMinute).
  destruct (civil_from_days (local / msPerDay)) as [[y m] d] eqn:E.
  destruct (civil_from_days_spec _ _ _ _ E) as (Hday & Hm & Hd & Hy).
  simpl. unfold msPerDay, msPerHour, msPerMinute, msPerSecond in *.
  repeat split; try lia.
Qed.

Lemma utcMillis_fields (y m d h mi s local : Z) :
  dayNumber y m d = local / msPerDay ->
  100 <= y ->
  1 <= m <= 12 ->
  h * msPerHour + mi * msPerMinute + s * msPerSecond
    = local mod msPerDay - local mod msPerSecond ->
  utcMillis (eraYear y) (m - 1) d h mi s = local - local mod msPerSecond.
Proof.
  intros Hday Hy Hm Hms.
  unfold utcMillis, eraYear, fullYear.
  replace (y <=? 0) with false by (symmetry; apply Z.leb_gt; lia).
  replace ((0 <=? y) && (y <=? 99)) with false
    by (symmetry; apply andb_false_iff; right; apply Z.leb_gt; lia).
  replace ((m - 1) / 12) with 0 by lia.
  replace ((m - 1) mod 12) with (m - 1) by lia.
  rewrite Z.add_0_r. unfold dayNumber in Hday. rewrite Hday, Hms.
  unfold msPerDay, msPerSecond. lia.
Qed.

Lemma year_of_modern_day (y day : Z) :
  DayFromYear 100 <= day -> day < DayFromYear (y + 1) -> 100 <= y.
Proof. unfold DayFromYear. lia. Qed.

Lemma utcMillis_civilAt (off t : Z) :
  minModern <= t + off * msPerMinute ->
  utcMillis (eraYear (c_year (civilAt off t))) (c_month (civilAt off t) - 1)
            (c_day (civilAt off t)) (c_hour (civilAt off t))
            (c_minute (civilAt off t)) (c_second (civilAt off t))
  = (t + off * msPerMinute) - (t + off * msPerMinute) mod msPerSecond.
Proof.
  intros Hmod.
  destruct (civilAt_fields off t) as (Hday & Hy & Hm & Hd & Hh & Hmi & Hs & Hms).
  apply utcMillis_fields; auto.
  apply (year_of_modern_day _ ((t + off * msPerMinute) / msPerDay)).
  - unfold minModern in Hmod. apply Z.div_le_lower_bound; [reflexivity |].
    rewrite Z.mul_comm. exact Hmod.
  - apply Hy.
Qed.

Lemma year_bound (y day : Z) :
  DayFromYear y <= day < DayFromYear (y + 1) ->
  -100000001 <= day <= 100000001 -> -300000 <= y <= 300000.
Proof. unfold DayFromYear. lia. Qed.

Lemma small_lt_pow : 300001 < 2 ^ 53.
Proof. vm_compute. reflexivity. Qed.

Lemma eraYear_bound (y : Z) :
  -300000 <= y <= 300000 -> 0 <= eraYear y < 2 ^ 53.
Proof.
  intros Hy.
  assert (He : 0 <= eraYear y <= 300001).
  { unfold eraYear. destruct (y <=? 0) eqn:E.
    - apply Z.leb_le in E. lia.
    - apply Z.leb_gt in E. lia. }
  split; [apply He |].
  eapply Z.le_lt_trans; [apply He | apply small_lt_pow].
Qed.

Lemma local_day_bound (off t : Z) :
  inTimeRange t = true -> -1440 <= off <= 1440 ->
  -100000001 <= (t + off * msPerMinute) / msPerDay <= 100000001.
Proof.
  unfold inTimeRange, maxTime, msPerMinute, msPerDay.
  intros Ht Hoff. apply Z.leb_le in Ht. lia.
Qed.

Lemma year_digits_bound (off t : Z) :
  inTimeRange t = true -> -1440 <= off <= 1440 ->
  0 <= eraYear (c_year (civilAt off t)) < 2 ^ 53.
Proof.
  intros Ht Hoff.
  destruct (civilAt_fields off t) as (_ & Hy & _).
  apply eraYear_bound.
  apply (year_bound _ _ Hy). apply local_day_bound; assumption.
Qed.

(* ===================================================================== *)
(** ** [getOffset] *)
(* ===================================================================== *)

(** The [values] object that [getOffset] fills from the parts. *)
Lemma getOffset_values (mo d y h mi s : string) :
  let values : gmap string string :=
    fold_left
      (fun (values : gmap string string) (p : part) =>
         if negb (String.eqb (part_type p) "literal")
         then <[part_type p := part_value p]> values
         else values)
      [ {| part_type := "month"; part_value := mo |};
        {| part_type := "literal"; part_value := "/" |};
        {| part_type := "day"; part_value := d |};
        {| part_type := "literal"; part_value := "/" |};
        {| part_type := "year"; part_value := y |};
        {| part_type := "literal"; part_value := ", " |};
        {| part_type := "hour"; part_value := h |};
        {| part_type := "literal"; part_value := ":" |};
        {| part_type := "minute"; part_value := mi |};
        {| part_type := "literal"; part_value := ":" |};
        {| part_type := "second"; part_value := s |} ] ∅ in
  values !! "year" = Some y /\ values !! "month" = Some mo
  /\ values !! "day" = Some d /\ values !! "hour" = Some h
  /\ values !! "minute" = Some mi /\ values !! "second" = Some s.
Proof. vm_compute. repeat split. Qed.

Section GetOffset.

Variable tzdb : TimeZoneDb.

Lemma Intl_formatToParts_ofZ (t : Z) (zone : string) (off : Z -> Z) :
  tzdb zone = Some off ->
  inTimeRange t = true ->
  Intl_formatToParts tzdb zone (ofZ t) =
  Ok [ {| part_type := "month"; part_value := pad2 (c_month (civilAt (off t) t)) |};
       {| part_type := "literal"; part_value := "/" |};
       {| part_type := "day"; part_value := pad2 (c_day (civilAt (off t) t)) |};
       {| part_type := "literal"; part_value := "/" |};
       {| part_type := "year";
          part_value := showNat (eraYear (c_year (civilAt (off t) t))) |};
       {| part_type := "literal"; part_value := ", " |};
       {| part_type := "hour"; part_value := pad2 (c_hour (civilAt (off t) t)) |};
       {| part_type := "literal"; part_value := ":" |};
       {| part_type := "minute"; part_value := pad2 (c_minute (civilAt (off t) t)) |};
       {| part_type := "literal"; part_value := ":" |};
       {| part_type := "second"; part_value := pad2 (c_second (civilAt (off t) t)) |} ].
Proof.
  intros Hz Ht. unfold Intl_formatToParts.
  rewrite Hz, TimeClip_ofZ, Ht. unfold ofZ.
  rewrite Qtrunc_inject_Z. reflexivity.
Qed.

Lemma Intl_format_ofZ (t : Z) (zone : string) (off : Z -> Z) :
  tzdb zone = Some off ->
  inTimeRange t = true ->
  Intl_format tzdb zone (ofZ t) =
  Ok (String.append (pad2 (c_hour (civilAt (off t) t)))
        (String ":" (pad2 (c_minute (civilAt (off t) t))))).
Proof.
  intros Hz Ht. unfold Intl_format.
  rewrite Hz, TimeClip_ofZ, Ht. unfold ofZ.
  rewrite Qtrunc_inject_Z. reflexivity.
Qed.

Lemma getOffset_parts (t : Z) (zone : string) (off : Z -> Z) :
  tzdb zone = Some off ->
  inTimeRange t = true ->
  -1440 <= off t <= 1440 ->
  getOffset tzdb (ofZ t) zone =
  Ok (nneg (ndiv (nsub (ofZ t)
        (Date_UTC (ofZ (eraYear (c_year (civilAt (off t) t))))
                  (ofZ (c_month (civilAt (off t) t) - 1))
                  (ofZ (c_day (civilAt (off t) t)))
                  (ofZ (c_hour (civilAt (off t) t)))
                  (ofZ (c_minute (civilAt (off t) t)))
                  (ofZ (c_second (civilAt (off t) t)))))
        (ofZ 60000))).
Proof.
  intros Hz Ht Hoff.
  destruct (civilAt_fields (off t) t) as (_ & _ & Hm & Hd & Hh & Hmi & Hs & _).
  pose proof (year_digits_bound (off t) t Ht Hoff) as Hy.
  unfold getOffset. rewrite (Intl_formatToParts_ofZ t zone off Hz Ht).
  generalize dependent (civilAt (off t) t). intros c Hm Hd Hh Hmi Hs Hy.
  unfold mbind, result_bind.
  destruct (getOffset_values (pad2 (c_month c)) (pad2 (c_day c))
              (showNat (eraYear (c_year c))) (pad2 (c_hour c))
              (pad2 (c_minute c)) (pad2 (c_second c)))
    as (Ey & Emo & Ed & Eh & Emi & Es).
  rewrite Ey, Emo, Ed, Eh, Emi, Es. unfold Number_opt.
  rewrite Number_showNat by exact Hy.
  rewrite !Number_pad2 by lia.
  rewrite nsub_ofZ by lia. reflexivity.
Qed.

Lemma floor_second_in_range (local : Z) :
  inTimeRange local = true ->
  inTimeRange (local - local mod msPerSecond) = true.
Proof.
  unfold inTimeRange, maxTime, msPerSecond. intros H.
  apply Z.leb_le in H. apply Z.leb_le. lia.
Qed.

Lemma local_mod_second (t off : Z) :
  (t + off * msPerMinute) mod msPerSecond = t mod msPerSecond.
Proof. unfold msPerMinute, msPerSecond. lia. Qed.

(** The value [getOffset] returns where the fields are read back as the
    same date: the zone's offset, less the fraction of a minute by which
    the instant exceeds a whole second. *)
Lemma getOffset_modern (t : Z) (zone : string) (off : Z -> Z) :
  tzdb zone = Some off ->
  inTimeRange t = true ->
  -1440 <= off t <= 1440 ->
  minModern <= t + off t * msPerMinute ->
  inTimeRange (t + off t * msPerMinute) = true ->
  getOffset tzdb (ofZ t) zone =
  Ok (nneg (ndiv (ofZ (t mod msPerSecond - off t * msPerMinute)) (ofZ 60000))).
Proof.
  intros Hz Ht Hoff Hmod Hloc.
  rewrite (getOffset_parts t zone off Hz Ht Hoff).
  rewrite Date_UTC_ofZ, (utcMillis_civilAt (off t) t Hmod).
  rewrite (floor_second_in_range _ Hloc).
  rewrite nsub_ofZ by (unfold msPerMinute, msPerSecond; lia).
  rewrite local_mod_second.
  do 4 f_equal. ring.
Qed.

Lemma getOffset_whole (t : Z) (zone : string) (off : Z -> Z) :
  tzdb zone = Some off ->
  inTimeRange t = true ->
  -1440 <= off t <= 1440 ->
  minModern <= t + off t * msPerMinute ->
  inTimeRange (t + off t * msPerMinute) = true ->
  t mod msPerSecond = 0 ->
  getOffset tzdb (ofZ t) zone = Ok (ofZ (off t)).
Proof.
  intros Hz Ht Hoff Hmod Hloc Hsec.
  rewrite (getOffset_modern t zone off Hz Ht Hoff Hmod Hloc), Hsec.
  replace (0 - off t * msPerMinute) with ((- off t) * 60000)
    by (unfold msPerMinute; ring).
  rewrite ndiv_ofZ_exact; [| discriminate | lia].
  rewrite nneg_ofZ, Z.opp_involutive. reflexivity.
Qed.

End GetOffset.

(* ===================================================================== *)
(** ** Well-formed requests *)
(* ===================================================================== *)

Lemma append_cons (c : ascii) (s t : string) :
  String.append (String c s) t = String c (String.append s t).
Proof. reflexivity. Qed.

Lemma append_nil (t : string) : String.append EmptyString t = t.
Proof. reflexivity. Qed.

Lemma split_digit (sep c : ascii) (s : string) :
  isDigit c = true -> isDigit sep = false ->
  split sep (String c s) =
  match split sep s with
  | [] => [String c EmptyString]
  | hd :: tl => String c hd :: tl
  end.
Proof.
  intros Hc Hsep. simpl.
  destruct (Ascii.eqb c sep) eqn:E; [| reflexivity].
  apply Ascii.eqb_eq in E. congruence.
Qed.

Lemma split_sep (sep : ascii) (s : string) :
  split sep (String sep s) = EmptyString :: split sep s.
Proof. simpl. rewrite Ascii.eqb_refl. reflexivity. Qed.

Lemma split_pad2_end (sep : ascii) (n : Z) :
  isDigit sep = false -> 0 <= n < 100 -> split sep (pad2 n) = [pad2 n].
Proof.
  intros Hsep Hn. unfold pad2.
  destruct (digitChar_spec (n / 10)) as [H1 _]; [lia |].
  destruct (digitChar_spec (n mod 10)) as [H2 _]; [lia |].
  rewrite (split_digit _ _ _ H1 Hsep), (split_digit _ _ _ H2 Hsep).
  reflexivity.
Qed.

Lemma split_pad2_sep (sep : ascii) (n : Z) (s : string) :
  isDigit sep = false -> 0 <= n < 100 ->
  split sep (String.append (pad2 n) (String sep s)) = pad2 n :: split sep s.
Proof.
  intros Hsep Hn. unfold pad2.
  destruct (digitChar_spec (n / 10)) as [H1 _]; [lia |].
  destruct (digitChar_spec (n mod 10)) as [H2 _]; [lia |].
  rewrite !append_cons, ?append_nil.
  rewrite (split_digit _ _ _ H1 Hsep), (split_digit _ _ _ H2 Hsep), split_sep.
  reflexivity.
Qed.

Lemma dash_not_digit : isDigit "-" = false.
Proof. reflexivity. Qed.

Lemma colon_not_digit : isDigit ":" = false.
Proof. reflexivity. Qed.

Lemma split_dateString (y m d : Z) :
  0 <= y < 10000 -> 0 <= m < 100 -> 0 <= d < 100 ->
  split "-" (dateString y m d) = [pad4 y; pad2 m; pad2 d].
Proof.
  intros Hy Hm Hd. unfold dateString, pad4.
  destruct (digitChar_spec (y / 1000)) as [H1 _]; [lia |].
  destruct (digitChar_spec ((y / 100) mod 10)) as [H2 _]; [lia |].
  rewrite !append_cons, ?append_nil.
  rewrite (split_digit "-" _ _ H1 dash_not_digit).
  rewrite (split_digit "-" _ _ H2 dash_not_digit).
  assert (Hyy : 0 <= y mod 100 < 100) by lia.
  rewrite (split_pad2_sep "-" (y mod 100) _ dash_not_digit Hyy).
  rewrite (split_pad2_sep "-" m _ dash_not_digit Hm).
  rewrite (split_pad2_end "-" d dash_not_digit Hd).
  reflexivity.
Qed.

Lemma split_timeString (h mi : Z) :
  0 <= h < 100 -> 0 <= mi < 100 ->
  split ":" (timeString h mi) = [pad2 h; pad2 mi].
Proof.
  intros Hh Hmi. unfold timeString.
  rewrite (split_pad2_sep ":" h _ colon_not_digit Hh).
  rewrite (split_pad2_end ":" mi colon_not_digit Hmi).
  reflexivity.
Qed.

Lemma Number_pad4 (y : Z) : 0 <= y < 10000 -> Number (pad4 y) = ofZ y.
Proof.
  intros Hy.
  destruct (digitChar_spec (y / 1000)) as [Hd1 Hv1]; [lia |].
  destruct (digitChar_spec ((y / 100) mod 10)) as [Hd2 Hv2]; [lia |].
  destruct (digitChar_spec ((y mod 100) / 10)) as [Hd3 Hv3]; [lia |].
  destruct (digitChar_spec ((y mod 100) mod 10)) as [Hd4 Hv4]; [lia |].
  change (pad4 y)
    with (string_of_list_ascii
            [digitChar (y / 1000); digitChar ((y / 100) mod 10);
             digitChar ((y mod 100) / 10); digitChar ((y mod 100) mod 10)]).
  assert (Hval : digitsValue 10 (map digitVal
            [digitChar (y / 1000); digitChar ((y / 100) mod 10);
             digitChar ((y mod 100) / 10); digitChar ((y mod 100) mod 10)]) = y).
  { unfold digitsValue. simpl. rewrite Hv1, Hv2, Hv3, Hv4. lia. }
  rewrite Number_digits.
  - rewrite Hval. reflexivity.
  - discriminate.
  - simpl. rewrite Hd1, Hd2, Hd3, Hd4. reflexivity.
  - rewrite Hval. split; [lia |].
    apply Z.lt_trans with 300001; [lia | apply small_lt_pow].
Qed.

Lemma monthStart_bounds (leap : bool) (mn : Z) :
  0 <= mn <= 11 -> 0 <= monthStart leap mn <= 335.
Proof.
  intros H.
  assert (Hc : mn = 0 \/ mn = 1 \/ mn = 2 \/ mn = 3 \/ mn = 4 \/ mn = 5 \/ mn = 6
               \/ mn = 7 \/ mn = 8 \/ mn = 9 \/ mn = 10 \/ mn = 11) by lia.
  destruct leap;
    repeat (destruct Hc as [Hc | Hc]; [subst mn; simpl; lia |]);
    subst mn; simpl; lia.
Qed.

Lemma DayFromYear_range (y : Z) :
  101 <= y <= 9999 -> DayFromYear 101 <= DayFromYear y <= DayFromYear 9999.
Proof. unfold DayFromYear. lia. Qed.

Lemma fullYear_modern (y : Z) : 100 <= y -> fullYear y = y.
Proof.
  intros H. unfold fullYear.
  replace (y <=? 99) with false by (symmetry; apply Z.leb_gt; lia).
  rewrite andb_false_r. reflexivity.
Qed.

Lemma anchor_bounds (y m d h mi : Z) :
  validCivil y m d h mi ->
  DayFromYear 101 * msPerDay <= anchorOf y m d h mi
  /\ anchorOf y m d h mi <= (DayFromYear 9999 + 366) * msPerDay
  /\ anchorOf y m d h mi mod msPerMinute = 0.
Proof.
  intros (Hy & Hm & Hd & Hh & Hmi).
  unfold anchorOf, utcMillis. rewrite fullYear_modern by lia.
  replace ((m - 1) / 12) with 0 by lia.
  replace ((m - 1) mod 12) with (m - 1) by lia.
  rewrite Z.add_0_r.
  pose proof (monthStart_bounds (InLeapYear y) (m - 1)) as Hms.
  pose proof (DayFromYear_range y Hy) as Hdy.
  generalize dependent (monthStart (InLeapYear y) (m - 1)). intros ms Hms.
  generalize dependent (DayFromYear y). intros dy Hdy.
  generalize dependent (DayFromYear 101). intros d101.
  generalize dependent (DayFromYear 9999). intros d9999 Hdy.
  unfold msPerDay, msPerHour, msPerMinute, msPerSecond.
  repeat split; lia.
Qed.

Lemma safeInstant_range (t off : Z) :
  safeInstant t -> -1440 <= off <= 1440 ->
  inTimeRange t = true
  /\ minModern <= t + off * msPerMinute
  /\ inTimeRange (t + off * msPerMinute) = true.
Proof.
  unfold safeInstant, inTimeRange, minModern.
  let v := eval vm_compute in (DayFromYear 101) in
    change (DayFromYear 101) with v.
  let v := eval vm_compute in (DayFromYear 100) in
    change (DayFromYear 100) with v.
  let v := eval vm_compute in (DayFromYear 9999) in
    change (DayFromYear 9999) with v.
  unfold msPerDay, msPerMinute, maxTime. intros Ht Hoff.
  repeat split; try apply Z.leb_le; lia.
Qed.

Lemma anchor_safe (y m d h mi : Z) :
  validCivil y m d h mi -> safeInstant (anchorOf y m d h mi).
Proof.
  intros Hv. destruct (anchor_bounds y m d h mi Hv) as (Hlo & Hhi & _).
  unfold safeInstant. generalize dependent (anchorOf y m d h mi).
  intros a. unfold msPerDay. lia.
Qed.

Lemma shifted_safe (y m d h mi off : Z) :
  validCivil y m d h mi -> -1440 <= off <= 1440 ->
  safeInstant (anchorOf y m d h mi - off * msPerMinute)
  /\ (anchorOf y m d h mi - off * msPerMinute) mod msPerMinute = 0.
Proof.
  intros Hv Hoff. destruct (anchor_bounds y m d h mi Hv) as (Hlo & Hhi & Hmin).
  unfold safeInstant. generalize dependent (anchorOf y m d h mi).
  intros a. unfold msPerDay, msPerMinute. lia.
Qed.

Section SafeInstants.

Variable tzdb : TimeZoneDb.

Lemma getOffset_safe (t : Z) (zone : string) (off : Z -> Z) :
  tzdb zone = Some off ->
  -1440 <= off t <= 1440 ->
  safeInstant t ->
  t mod msPerMinute = 0 ->
  getOffset tzdb (ofZ t) zone = Ok (ofZ (off t)).
Proof.
  intros Hz Hoff Hsafe Hmin.
  destruct (safeInstant_range t (off t) Hsafe Hoff) as (Ht & Hmod & Hloc).
  apply getOffset_whole; auto.
  unfold msPerMinute, msPerSecond in *. lia.
Qed.

End SafeInstants.

Lemma falsy_ofZ (z : Z) : z <> 0 -> falsy (Some (ofZ z)) = false.
Proof.
  intros H. unfold falsy, ofZ, Qis_zero, inject_Z. simpl.
  apply Z.eqb_neq. exact H.
Qed.

Lemma components_dateString (y m d : Z) :
  0 <= y < 10000 -> 0 <= m < 100 -> 0 <= d < 100 ->
  map Number (split "-" (dateString y m d)) = [ofZ y; ofZ m; ofZ d].
Proof.
  intros Hy Hm Hd. rewrite split_dateString by assumption.
  cbn [map]. rewrite Number_pad4, !Number_pad2 by assumption. reflexivity.
Qed.

Lemma components_timeString (h mi : Z) :
  0 <= h < 100 -> 0 <= mi < 100 ->
  map Number (split ":" (timeString h mi)) = [ofZ h; ofZ mi].
Proof.
  intros Hh Hmi. rewrite split_timeString by assumption.
  cbn [map]. rewrite !Number_pad2 by assumption. reflexivity.
Qed.

Section Requests.

Variable tzdb : TimeZoneDb.

(** The instant both entry points resolve for a well-formed request: the
    provisional instant less the source offset read at it. *)
Lemma calculateEpoch_valid (y m d h mi : Z) (zone : string) (off : Z -> Z) :
  validCivil y m d h mi ->
  tzdb zone = Some off ->
  boundedOffsets off ->
  calculateEpochFromTimezone tzdb (dateString y m d) (timeString h mi) zone =
  Ok (ofZ (anchorOf y m d h mi - off (anchorOf y m d h mi) * msPerMinute)).
Proof.
  intros Hv Hz Hb.
  pose proof (anchor_safe y m d h mi Hv) as Hsafe.
  destruct (anchor_bounds y m d h mi Hv) as (_ & _ & Hmin).
  destruct Hv as (Hy & Hm & Hd & Hh & Hmi).
  unfold calculateEpochFromTimezone.
  rewrite components_dateString, components_timeString by lia.
  cbn [lookup list_lookup].
  rewrite !falsy_ofZ by lia.
  cbn [is_nullish Number_isNaN ofZ orb ToNumber].
  rewrite nsub_ofZ by lia. rewrite Date_UTC_ofZ.
  change (utcMillis y (m - 1) d h mi 0) with (anchorOf y m d h mi).
  destruct (safeInstant_range _ _ Hsafe (Hb (anchorOf y m d h mi)))
    as (Hrange & _ & _).
  rewrite Hrange, (newDate_ofZ _ Hrange).
  rewrite (getOffset_safe tzdb _ zone off Hz (Hb _) Hsafe Hmin).
  unfold mbind, result_bind.
  pose proof (Hb (anchorOf y m d h mi)) as Hoff.
  assert (Ha : Z.abs (anchorOf y m d h mi) <= maxTime)
    by (apply Z.leb_le; exact Hrange).
  unfold maxTime in Ha.
  rewrite (nmul_ofZ _ 60) by lia.
  rewrite nmul_ofZ by lia.
  rewrite nsub_ofZ by lia.
  do 2 f_equal. unfold msPerMinute. ring.
Qed.

Lemma convertTime_epochUTC_valid (y m d h mi : Z) (zone : string) (off : Z -> Z) :
  validCivil y m d h mi ->
  tzdb zone = Some off ->
  boundedOffsets off ->
  convertTime_epochUTC tzdb (dateString y m d) (timeString h mi) zone =
  Ok (ofZ (anchorOf y m d h mi - off (anchorOf y m d h mi) * msPerMinute)).
Proof. exact (calculateEpoch_valid y m d h mi zone off). Qed.

End Requests.

(* ===================================================================== *)
(** ** The result object *)
(* ===================================================================== *)

Lemma civilAt_clock (off t : Z) :
  c_hour (civilAt off t) = ((t + off * msPerMinute) mod msPerDay) / msPerHour
  /\ c_minute (civilAt off t)
     = (((t + off * msPerMinute) mod msPerDay) mod msPerHour) / msPerMinute.
Proof.
  unfold civilAt.
  destruct (civil_from_days ((t + off * msPerMinute) / msPerDay)) as [[y m] d].
  split; reflexivity.
Qed.

(** A local clock shows what the clock of UTC shows [off] minutes later. *)
Lemma hhmmAt_shift (off t : Z) : hhmmAt off t = hhmmAt 0 (t + off * msPerMinute).
Proof.
  unfold hhmmAt.
  destruct (civilAt_clock off t) as [-> ->].
  destruct (civilAt_clock 0 (t + off * msPerMinute)) as [-> ->].
  rewrite Z.mul_0_l, Z.add_0_r. reflexivity.
Qed.

Lemma hhmmAt_shape (off t : Z) :
  exists hh mm, 0 <= hh <= 23 /\ 0 <= mm <= 59 /\ hhmmAt off t = timeString hh mm.
Proof.
  exists (c_hour (civilAt off t)), (c_minute (civilAt off t)).
  destruct (civilAt_fields off t) as (_ & _ & _ & _ & Hh & Hmi & _).
  repeat split; try lia.
Qed.

Section Results.

Variable tzdb : TimeZoneDb.

Lemma formatZones_ok (zones : list string) (t : Z) (acc : gmap string string) :
  inTimeRange t = true ->
  (forall z, In z zones -> supportedZone tzdb z) ->
  formatZones tzdb zones (ofZ t) acc =
  Ok (fold_left (fun r z => <[z := clockOf tzdb z t]> r) zones acc).
Proof.
  intros Ht. revert acc.
  induction zones as [| z rest IH]; intros acc Hs; [reflexivity |].
  destruct (Hs z (or_introl eq_refl)) as (off & Hz & _).
  cbn [formatZones fold_left].
  rewrite (Intl_format_ofZ tzdb t z off Hz Ht).
  unfold mbind, result_bind. fold (hhmmAt (off t) t).
  replace (hhmmAt (off t) t) with (clockOf tzdb z t)
    by (unfold clockOf; rewrite Hz; reflexivity).
  apply IH. intros z' Hz'. apply Hs. right. exact Hz'.
Qed.

Lemma fold_insert_lookup (f : string -> string) (zones : list string)
  (acc : gmap string string) (z : string) :
  fold_left (fun r z => <[z := f z]> r) zones acc !! z =
  if decide (z ∈ zones) then Some (f z) else acc !! z.
Proof.
  revert acc. induction zones as [| z0 rest IH]; intros acc.
  - cbn [fold_left]. destruct (decide (z ∈ [])) as [H | _]; [| reflexivity].
    inversion H.
  - cbn [fold_left]. rewrite IH.
    destruct (decide (z ∈ rest)) as [Hin | Hnin].
    + rewrite decide_True by (right; exact Hin). reflexivity.
    + destruct (decide (z0 = z)) as [-> | Hne].
      * rewrite lookup_insert_eq, decide_True by left. reflexivity.
      * rewrite lookup_insert_ne by exact Hne.
        rewrite decide_False; [reflexivity |].
        intros H. inversion H; subst; [congruence | contradiction].
Qed.

End Results.

Section Conversions.

Variable tzdb : TimeZoneDb.

Lemma convertAll_valid (y m d h mi : Z) (zone : string) (off : Z -> Z) :
  validCivil y m d h mi ->
  tzdb zone = Some off ->
  boundedOffsets off ->
  supportsAll tzdb ->
  convertAll tzdb (dateString y m d) (timeString h mi) zone =
  Ok (fold_left
        (fun r z => <[z := clockOf tzdb z
           (anchorOf y m d h mi - off (anchorOf y m d h mi) * msPerMinute)]> r)
        allZones ∅).
Proof.
  intros Hv Hz Hb Hall. unfold convertAll.
  rewrite (calculateEpoch_valid tzdb y m d h mi zone off Hv Hz Hb).
  unfold mbind, result_bind.
  destruct (shifted_safe y m d h mi (off (anchorOf y m d h mi)) Hv (Hb _))
    as (Hsafe & _).
  destruct (safeInstant_range _ 0 Hsafe ltac:(lia)) as (Hrange & _ & _).
  rewrite (newDate_ofZ _ Hrange).
  apply formatZones_ok; [exact Hrange | exact Hall].
Qed.

Lemma convertTime_valid (y m d h mi : Z) (zone : string) (off : Z -> Z) :
  validCivil y m d h mi ->
  tzdb zone = Some off ->
  boundedOffsets off ->
  supportsAll tzdb ->
  convertTime tzdb (dateString y m d) (timeString h mi) zone =
  Ok (fold_left
        (fun r z => <[z := clockOf tzdb z
           (anchorOf y m d h mi - off (anchorOf y m d h mi) * msPerMinute)]> r)
        (List.filter (fun tz => negb (String.eqb tz zone)) allZones) ∅).
Proof.
  intros Hv Hz Hb Hall. unfold convertTime.
  rewrite (convertTime_epochUTC_valid tzdb y m d h mi zone off Hv Hz Hb).
  unfold mbind, result_bind.
  destruct (shifted_safe y m d h mi (off (anchorOf y m d h mi)) Hv (Hb _))
    as (Hsafe & _).
  destruct (safeInstant_range _ 0 Hsafe ltac:(lia)) as (Hrange & _ & _).
  rewrite (newDate_ofZ _ Hrange).
  apply formatZones_ok; [exact Hrange |].
  intros z Hin. apply filter_In in Hin. apply Hall. apply Hin.
Qed.

End Conversions.

(* ===================================================================== *)
(** ** The validation and what follows it *)
(* ===================================================================== *)

Lemma calculateEpoch_unfold (tzdb : TimeZoneDb) (dateStr timeStr zone : string) :
  calculateEpochFromTimezone tzdb dateStr timeStr zone =
  if rejects dateStr timeStr then Throw InvalidInput
  else resolveAt tzdb (anchorNumber dateStr timeStr) zone.
Proof. reflexivity. Qed.

Lemma convertTime_epochUTC_unfold (tzdb : TimeZoneDb) (dateStr timeStr zone : string) :
  convertTime_epochUTC tzdb dateStr timeStr zone =
  if rejects dateStr timeStr then Throw InvalidInput
  else resolveAt tzdb (anchorNumber dateStr timeStr) zone.
Proof. reflexivity. Qed.

(** The exceptions of the formatter are [RangeError]s. *)
Lemma Intl_formatToParts_not_invalid (tzdb : TimeZoneDb) (zone : string) (date : JsDate) :
  Intl_formatToParts tzdb zone date <> Throw InvalidInput.
Proof.
  unfold Intl_formatToParts.
  destruct (tzdb zone); [| discriminate].
  destruct (TimeClip date); discriminate.
Qed.

Lemma Intl_format_not_invalid (tzdb : TimeZoneDb) (zone : string) (date : JsDate) :
  Intl_format tzdb zone date <> Throw InvalidInput.
Proof.
  unfold Intl_format.
  destruct (tzdb zone); [| discriminate].
  destruct (TimeClip date); discriminate.
Qed.

Lemma getOffset_not_invalid (tzdb : TimeZoneDb) (date : JsDate) (zone : string) :
  getOffset tzdb date zone <> Throw InvalidInput.
Proof.
  unfold getOffset.
  pose proof (Intl_formatToParts_not_invalid tzdb zone date) as H.
  destruct (Intl_formatToParts tzdb zone date) as [parts | e].
  - discriminate.
  - unfold mbind, result_bind. congruence.
Qed.

Lemma resolveAt_not_invalid (tzdb : TimeZoneDb) (anchor : number) (zone : string) :
  resolveAt tzdb anchor zone <> Throw InvalidInput.
Proof.
  unfold resolveAt.
  pose proof (getOffset_not_invalid tzdb (newDate anchor) zone) as H.
  destruct (getOffset tzdb (newDate anchor) zone) as [o | e].
  - discriminate.
  - unfold mbind, result_bind. congruence.
Qed.

Lemma formatZones_not_invalid (tzdb : TimeZoneDb) (zones : list string)
  (date : JsDate) (acc : gmap string string) :
  formatZones tzdb zones date acc <> Throw InvalidInput.
Proof.
  revert acc. induction zones as [| z rest IH]; intros acc; [discriminate |].
  cbn [formatZones].
  pose proof (Intl_format_not_invalid tzdb z date) as H.
  destruct (Intl_format tzdb z date) as [s | e].
  - unfold mbind, result_bind. apply IH.
  - unfold mbind, result_bind. congruence.
Qed.

Lemma calculateEpoch_invalid_iff (tzdb : TimeZoneDb) (dateStr timeStr zone : string) :
  calculateEpochFromTimezone tzdb dateStr timeStr zone = Throw InvalidInput
  <-> rejects dateStr timeStr = true.
Proof.
  rewrite calculateEpoch_unfold.
  destruct (rejects dateStr timeStr).
  - split; reflexivity.
  - split; [| discriminate].
    intros H. exfalso. exact (resolveAt_not_invalid _ _ _ H).
Qed.

Lemma convertTime_invalid_iff (tzdb : TimeZoneDb) (dateStr timeStr zone : string) :
  convertTime tzdb dateStr timeStr zone = Throw InvalidInput
  <-> rejects dateStr timeStr = true.
Proof.
  unfold convertTime. rewrite convertTime_epochUTC_unfold.
  destruct (rejects dateStr timeStr).
  - split; reflexivity.
  - split; [| discriminate].
    intros H. exfalso.
    pose proof (resolveAt_not_invalid tzdb (anchorNumber dateStr timeStr) zone) as Hr.
    destruct (resolveAt tzdb (anchorNumber dateStr timeStr) zone) as [e | e].
    + unfold mbind, result_bind in H. exact (formatZones_not_invalid _ _ _ _ H).
    + unfold mbind, result_bind in H. congruence.
Qed.

Lemma convertAll_invalid_iff (tzdb : TimeZoneDb) (dateStr timeStr zone : string) :
  convertAll tzdb dateStr timeStr zone = Throw InvalidInput
  <-> rejects dateStr timeStr = true.
Proof.
  unfold convertAll. rewrite calculateEpoch_unfold.
  destruct (rejects dateStr timeStr).
  - split; reflexivity.
  - split; [| discriminate].
    intros H. exfalso.
    pose proof (resolveAt_not_invalid tzdb (anchorNumber dateStr timeStr) zone) as Hr.
    destruct (resolveAt tzdb (anchorNumber dateStr timeStr) zone) as [e | e].
    + unfold mbind, result_bind in H. exact (formatZones_not_invalid _ _ _ _ H).
    + unfold mbind, result_bind in H. congruence.
Qed.

Lemma Qis_zero_spec (q : Q) : Qis_zero q = true <-> (q == 0)%Q.
Proof.
  unfold Qis_zero, Qeq. simpl. rewrite Z.eqb_eq, Z.mul_1_r. reflexivity.
Qed.

Lemma falsy_spec (v : option number) : falsy v = true <-> badDatePart v.
Proof.
  unfold badDatePart, isMissing, isNotANumber, isZero.
  destruct v as [[| s | q] |]; simpl.
  - split; auto.
  - split; [discriminate |].
    intros [H | [H | (q & H & _)]]; discriminate.
  - rewrite Qis_zero_spec. split.
    + intros H. right. right. exists q. auto.
    + intros [H | [H | (q' & H & Hq)]]; try discriminate.
      injection H as ->. exact Hq.
  - split; auto.
Qed.

Lemma is_nullish_spec (v : option number) : is_nullish v = true <-> isMissing v.
Proof. unfold isMissing. destruct v; simpl; split; congruence. Qed.

Lemma Number_isNaN_spec (v : option number) :
  Number_isNaN v = true <-> isNotANumber v.
Proof.
  unfold isNotANumber. destruct v as [[| s | q] |]; simpl; split; congruence.
Qed.

Lemma rejects_spec (dateStr timeStr : string) :
  rejects dateStr timeStr = true <->
  badDatePart (component "-" dateStr 0) \/ badDatePart (component "-" dateStr 1)
  \/ badDatePart (component "-" dateStr 2)
  \/ badTimePart (component ":" timeStr 0) \/ badTimePart (component ":" timeStr 1).
Proof.
  unfold rejects.
  rewrite !orb_true_iff, !falsy_spec, !is_nullish_spec, !Number_isNaN_spec.
  unfold badDatePart, badTimePart. tauto.
Qed.

Lemma rejects_falsy_day (dateStr timeStr : string) :
  falsy (component "-" dateStr 2) = true -> rejects dateStr timeStr = true.
Proof. intros H. apply rejects_spec. rewrite falsy_spec in H. tauto. Qed.


Lemma rejects_falsy_year (dateStr timeStr : string) :
  falsy (component "-" dateStr 0) = true -> rejects dateStr timeStr = true.
Proof. intros H. apply rejects_spec. rewrite falsy_spec in H. tauto. Qed.

Lemma rejects_missing_minute (dateStr timeStr : string) :
  component ":" timeStr 1 = None -> rejects dateStr timeStr = true.
Proof. intros H. apply rejects_spec. unfold badTimePart, isMissing. tauto. Qed.

(** C6.  The conversion fails with the invalid-input error exactly when a
    year, month or day is missing, [NaN] or zero, or an hour or minute is
    missing or [NaN]; here missing means that the split text has no such
    element, and [NaN] is what a non-numeric component becomes.  This holds
    for [calculateEpochFromTimezone], for [convertTime] and for the
    [/convert-multi] conversion, and a rejected request yields no mapping.
    In particular the date ["2025-01-00"] and a time without a minute are
    rejected, whatever the other arguments. *)
Theorem invalid_input_exactly_when_validation_fails
  (tzdb : TimeZoneDb) (dateStr timeStr zone : string) :
  let bad :=
    badDatePart (component "-" dateStr 0) \/ badDatePart (component "-" dateStr 1)
    \/ badDatePart (component "-" dateStr 2)
    \/ badTimePart (component ":" timeStr 0) \/ badTimePart (component ":" timeStr 1) in
  (calculateEpochFromTimezone tzdb dateStr timeStr zone = Throw InvalidInput <-> bad)
  /\ (convertTime tzdb dateStr timeStr zone = Throw InvalidInput <-> bad)
  /\ (convertAll tzdb dateStr timeStr zone = Throw InvalidInput <-> bad)
  /\ (bad -> forall results,
        convertTime tzdb dateStr timeStr zone <> Ok results
        /\ convertAll tzdb dateStr timeStr zone <> Ok results)
  /\ calculateEpochFromTimezone tzdb "2025-01-00" timeStr zone = Throw InvalidInput
  /\ convertTime tzdb "2025-01-00" timeStr zone = Throw InvalidInput
  /\ calculateEpochFromTimezone tzdb dateStr "14" zone = Throw InvalidInput
  /\ convertTime tzdb dateStr "14" zone = Throw InvalidInput.
Proof.
  intros bad. unfold bad.
  rewrite <- rejects_spec.
  split; [apply calculateEpoch_invalid_iff |].
  split; [apply convertTime_invalid_iff |].
  split; [apply convertAll_invalid_iff |].
  split.
  { intros Hbad results.
    apply (convertTime_invalid_iff tzdb dateStr timeStr zone) in Hbad as H1.
    apply (convertAll_invalid_iff tzdb dateStr timeStr zone) in Hbad as H2.
    rewrite H1, H2. split; discriminate. }
  split; [apply calculateEpoch_invalid_iff, rejects_falsy_day; reflexivity |].
  split; [apply convertTime_invalid_iff, rejects_falsy_day; reflexivity |].
  split; [apply calculateEpoch_invalid_iff, rejects_missing_minute; reflexivity |].
  apply convertTime_invalid_iff, rejects_missing_minute. reflexivity.
Qed.

(* ===================================================================== *)
(** ** The table of 2025 is well formed *)
(* ===================================================================== *)

Lemma tz2025_bounded (zone : string) (off : Z -> Z) :
  tz2025 zone = Some off -> boundedOffsets off.
Proof.
  unfold tz2025, boundedOffsets. intros H t.
  repeat match type of H with
         | (if ?b then _ else _) = _ => destruct b
         end;
    try discriminate; injection H as <-;
    unfold santiago2025, newYork2025;
    repeat match goal with
           | |- context [if ?b then _ else _] => destruct b
           end; lia.
Qed.

Lemma tz2025_supported (zone : string) :
  In zone allZones -> supportedZone tz2025 zone.
Proof.
  intros Hin. unfold supportedZone.
  destruct (tz2025 zone) as [off |] eqn:E.
  - exists off. split; [reflexivity | exact (tz2025_bounded zone off E)].
  - exfalso. unfold allZones in Hin. simpl in Hin.
    repeat (destruct Hin as [<- | Hin]; [discriminate E |]). exact Hin.
Qed.

Lemma tz2025_supportsAll : supportsAll tz2025.
Proof. intros zone Hin. apply tz2025_supported. exact Hin. Qed.

(* ===================================================================== *)
(** ** The two entry points resolve the same instant *)
(* ===================================================================== *)

(** C9.  On the same date text, time text and source zone, the first half
    of [convertTime] and [calculateEpochFromTimezone] give the same result:
    the same epoch, or the same exception.  So the mapping of [convertTime]
    is the formatting of the instant [calculateEpochFromTimezone] returns,
    and each of the two throws the invalid-input error exactly when the
    other does. *)
Theorem epoch_resolution_equivalent
  (tzdb : TimeZoneDb) (dateStr timeStr zone : string) :
  convertTime_epochUTC tzdb dateStr timeStr zone
    = calculateEpochFromTimezone tzdb dateStr timeStr zone
  /\ convertTime tzdb dateStr timeStr zone
     = (epochUTC ← calculateEpochFromTimezone tzdb dateStr timeStr zone;
        formatZones tzdb
          (List.filter (fun tz => negb (String.eqb tz zone)) allZones)
          (newDate epochUTC) ∅)
  /\ (convertTime tzdb dateStr timeStr zone = Throw InvalidInput
      <-> calculateEpochFromTimezone tzdb dateStr timeStr zone = Throw InvalidInput).
Proof.
  split; [| split].
  - rewrite convertTime_epochUTC_unfold, calculateEpoch_unfold. reflexivity.
  - unfold convertTime.
    rewrite convertTime_epochUTC_unfold, calculateEpoch_unfold. reflexivity.
  - rewrite convertTime_invalid_iff, calculateEpoch_invalid_iff. reflexivity.
Qed.

(* ===================================================================== *)
(** ** Components out of range *)
(* ===================================================================== *)

(** C5, as stated, fails: a month of 13 passes the validation, and so do
    an hour of 25 and a minute of 61. *)
Lemma month_13_is_not_rejected :
  calculateEpochFromTimezone tz2025 "2025-13-01" "14:30" "America/Santiago"
    = Ok (ofZ 1767288600000)
  /\ calculateEpochFromTimezone tz2025 "2025-01-15" "25:61" "America/Santiago"
     = Ok (ofZ 1737003660000).
Proof. split; vm_compute; reflexivity. Qed.

Lemma components_2025_13_01 :
  map Number (split "-" "2025-13-01") = [ofZ 2025; ofZ 13; ofZ 1]
  /\ map Number (split "-" "2026-01-01") = [ofZ 2026; ofZ 1; ofZ 1]
  /\ map Number (split "-" "2025-01-15") = [ofZ 2025; ofZ 1; ofZ 15]
  /\ map Number (split "-" "2025-01-16") = [ofZ 2025; ofZ 1; ofZ 16]
  /\ map Number (split ":" "25:61") = [ofZ 25; ofZ 61]
  /\ map Number (split ":" "02:01") = [ofZ 2; ofZ 1]
  /\ map Number (split "-" "") = [ofZ 0]
  /\ map Number (split ":" "") = [ofZ 0].
Proof. repeat (apply conj); vm_compute; reflexivity. Qed.

(** Month 13 of 2025 is January 2026 to [MakeDay]. *)
Lemma MakeDay_month_13 (day : number) :
  MakeDay (MakeFullYear (ofZ 2025)) (nsub (ofZ 13) (ofZ 1)) day
  = MakeDay (MakeFullYear (ofZ 2026)) (nsub (ofZ 1) (ofZ 1)) day.
Proof.
  rewrite !nsub_ofZ by lia. rewrite !MakeFullYear_ofZ.
  destruct day as [| s | q]; reflexivity.
Qed.

Lemma Date_UTC_25_61 :
  Date_UTC (ofZ 2025) (nsub (ofZ 1) (ofZ 1)) (ofZ 15) (ofZ 25) (ofZ 61) (ofZ 0)
  = Date_UTC (ofZ 2025) (nsub (ofZ 1) (ofZ 1)) (ofZ 16) (ofZ 2) (ofZ 1) (ofZ 0).
Proof. vm_compute. reflexivity. Qed.

Lemma rejects_date_only (d1 d2 timeStr : string) :
  map Number (split "-" d1) = map Number (split "-" d2) ->
  rejects d1 timeStr = rejects d2 timeStr.
Proof. intros H. unfold rejects, component. rewrite H. reflexivity. Qed.

Lemma anchorNumber_month_13 (timeStr : string) :
  anchorNumber "2025-13-01" timeStr = anchorNumber "2026-01-01" timeStr.
Proof.
  destruct components_2025_13_01 as (H1 & H2 & _).
  unfold anchorNumber, component. rewrite H1, H2.
  cbn [lookup list_lookup ToNumber]. unfold Date_UTC.
  rewrite MakeDay_month_13. reflexivity.
Qed.

Lemma anchorNumber_25_61 :
  anchorNumber "2025-01-15" "25:61" = anchorNumber "2025-01-16" "02:01".
Proof.
  destruct components_2025_13_01 as (_ & _ & H1 & H2 & H3 & H4 & _).
  unfold anchorNumber, component. rewrite H1, H2, H3, H4.
  cbn [lookup list_lookup ToNumber]. apply Date_UTC_25_61.
Qed.

Lemma rejects_month_13 (timeStr : string) :
  rejects "2025-13-01" timeStr = rejects "2026-01-01" timeStr.
Proof.
  destruct components_2025_13_01 as (H1 & H2 & _).
  unfold rejects, component. rewrite H1, H2.
  cbn [lookup list_lookup]. rewrite !falsy_ofZ by discriminate. reflexivity.
Qed.

Lemma rejects_examples :
  rejects "2025-13-01" "14:30" = false
  /\ rejects "2025-01-15" "25:61" = false
  /\ rejects "2025-01-16" "02:01" = false.
Proof. repeat (apply conj); vm_compute; reflexivity. Qed.

(** C5, amended.  The empty date and the empty time are rejected with the
    invalid-input error, whatever the other arguments.  The date
    ["2025-13-01"] and the time ["25:61"] are not: the validation has no
    range check, a request with one of them is rejected only if its other
    text is, and otherwise [Date.UTC] carries the excess over, so that
    ["2025-13-01"] converts as ["2026-01-01"] does and ["25:61"] on
    2025-01-15 as ["02:01"] does on 2025-01-16. *)
Theorem empty_rejected_out_of_range_carried
  (tzdb : TimeZoneDb) (dateStr timeStr zone : string) :
  calculateEpochFromTimezone tzdb "" timeStr zone = Throw InvalidInput
  /\ convertTime tzdb "" timeStr zone = Throw InvalidInput
  /\ calculateEpochFromTimezone tzdb dateStr "" zone = Throw InvalidInput
  /\ convertTime tzdb dateStr "" zone = Throw InvalidInput
  /\ rejects "2025-13-01" "14:30" = false
  /\ rejects "2025-01-15" "25:61" = false
  /\ calculateEpochFromTimezone tzdb "2025-13-01" timeStr zone
     = calculateEpochFromTimezone tzdb "2026-01-01" timeStr zone
  /\ convertTime tzdb "2025-13-01" timeStr zone
     = convertTime tzdb "2026-01-01" timeStr zone
  /\ calculateEpochFromTimezone tzdb "2025-01-15" "25:61" zone
     = calculateEpochFromTimezone tzdb "2025-01-16" "02:01" zone
  /\ convertTime tzdb "2025-01-15" "25:61" zone
     = convertTime tzdb "2025-01-16" "02:01" zone.
Proof.
  split; [apply calculateEpoch_invalid_iff, rejects_falsy_year; vm_compute; reflexivity |].
  split; [apply convertTime_invalid_iff, rejects_falsy_year; vm_compute; reflexivity |].
  split; [apply calculateEpoch_invalid_iff, rejects_missing_minute; vm_compute; reflexivity |].
  split; [apply convertTime_invalid_iff, rejects_missing_minute; vm_compute; reflexivity |].
  destruct rejects_examples as (Hr1 & Hr2 & Hr3).
  split; [exact Hr1 |].
  split; [exact Hr2 |].
  pose proof (rejects_month_13 timeStr) as Hrej.
  pose proof anchorNumber_25_61 as Hanchor.
  assert (Hrej2 : rejects "2025-01-15" "25:61" = rejects "2025-01-16" "02:01")
    by (rewrite Hr2, Hr3; reflexivity).
  split; [| split; [| split]].
  - rewrite !calculateEpoch_unfold, Hrej, anchorNumber_month_13. reflexivity.
  - unfold convertTime.
    rewrite !convertTime_epochUTC_unfold, Hrej, anchorNumber_month_13. reflexivity.
  - rewrite !calculateEpoch_unfold, Hrej2, Hanchor. reflexivity.
  - unfold convertTime.
    rewrite !convertTime_epochUTC_unfold, Hrej2, Hanchor. reflexivity.
Qed.

(* ===================================================================== *)
(** ** The offset resolver *)
(* ===================================================================== *)







(* ===================================================================== *)
(** ** The converter on well-formed requests *)
(* ===================================================================== *)

Lemma anchorOf_closed (y m d h mi : Z) :
  validCivil y m d h mi ->
  anchorOf y m d h mi
  = dayNumber y m d * msPerDay + h * msPerHour + mi * msPerMinute.
Proof.
  intros (Hy & Hm & _).
  unfold anchorOf, utcMillis, dayNumber. rewrite fullYear_modern by lia.
  replace ((m - 1) / 12) with 0 by lia.
  replace ((m - 1) mod 12) with (m - 1) by lia.
  rewrite Z.add_0_r. ring.
Qed.

Lemma validCivil_2025_01_15 : validCivil 2025 1 15 14 30.
Proof. unfold validCivil. lia. Qed.

(** C3.  For a well-formed date, time and supported source zone, both
    entry points return [utc - offsetSource * 60000], where [utc] is the
    epoch value of the civil fields read as UTC, which is what [Date.UTC]
    gives for them, and [offsetSource] is what [getOffset] returns at the
    instant [utc]: the zone's offset at the provisional instant, not at the
    instant returned. *)
Theorem epoch_is_anchor_minus_source_offset
  (tzdb : TimeZoneDb) (y m d h mi : Z) (src : string) (off : Z -> Z) :
  validCivil y m d h mi ->
  tzdb src = Some off ->
  boundedOffsets off ->
  let utc := dayNumber y m d * msPerDay + h * msPerHour + mi * msPerMinute in
  Date_UTC (ofZ y) (nsub (ofZ m) (ofZ 1)) (ofZ d) (ofZ h) (ofZ mi) (ofZ 0) = ofZ utc
  /\ getOffset tzdb (newDate (ofZ utc)) src = Ok (ofZ (off utc))
  /\ calculateEpochFromTimezone tzdb (dateString y m d) (timeString h mi) src
     = Ok (ofZ (utc - off utc * 60000))
  /\ convertTime_epochUTC tzdb (dateString y m d) (timeString h mi) src
     = Ok (ofZ (utc - off utc * 60000)).
Proof.
  intros Hv Hz Hb utc.
  assert (Hutc : anchorOf y m d h mi = utc) by (apply anchorOf_closed; exact Hv).
  pose proof (anchor_safe y m d h mi Hv) as Hsafe.
  destruct (anchor_bounds y m d h mi Hv) as (_ & _ & Hmin).
  destruct (safeInstant_range _ _ Hsafe (Hb (anchorOf y m d h mi)))
    as (Hrange & _ & _).
  pose proof (calculateEpoch_valid tzdb y m d h mi src off Hv Hz Hb) as Hc.
  pose proof (convertTime_epochUTC_valid tzdb y m d h mi src off Hv Hz Hb) as Hl.
  pose proof (getOffset_safe tzdb _ src off Hz (Hb _) Hsafe Hmin) as Hg.
  assert (Hd : Date_UTC (ofZ y) (nsub (ofZ m) (ofZ 1)) (ofZ d) (ofZ h) (ofZ mi) (ofZ 0)
               = ofZ (anchorOf y m d h mi)).
  { rewrite nsub_ofZ by (destruct Hv as (_ & Hm & _); lia).
    rewrite Date_UTC_ofZ.
    change (utcMillis y (m - 1) d h mi 0) with (anchorOf y m d h mi).
    rewrite Hrange. reflexivity. }
  rewrite <- (newDate_ofZ _ Hrange) in Hg.
  rewrite Hutc in Hc, Hl, Hg, Hd.
  repeat split; assumption.
Qed.

Lemma epoch_is_anchor_minus_source_offset_witness :
  validCivil 2025 1 15 14 30
  /\ tz2025 "America/Santiago" = Some santiago2025
  /\ calculateEpochFromTimezone tz2025 (dateString 2025 1 15) (timeString 14 30)
       "America/Santiago"
     = Ok (ofZ (dayNumber 2025 1 15 * msPerDay + 14 * msPerHour + 30 * msPerMinute
                - santiago2025 (dayNumber 2025 1 15 * msPerDay + 14 * msPerHour
                                + 30 * msPerMinute) * 60000)).
Proof.
  split; [unfold validCivil; lia |]. split; [reflexivity |].
  destruct (epoch_is_anchor_minus_source_offset tz2025 2025 1 15 14 30
              "America/Santiago" santiago2025) as (_ & _ & H & _).
  - unfold validCivil. lia.
  - reflexivity.
  - apply (tz2025_bounded "America/Santiago"). reflexivity.
  - exact H.
Defined.





Lemma dom_fold_insert (f : string -> string) (zones : list string) :
  dom (fold_left (fun (r : gmap string string) z => <[z := f z]> r) zones ∅)
  = list_to_set zones.
Proof.
  apply set_eq. intros z.
  rewrite elem_of_dom, fold_insert_lookup, elem_of_list_to_set.
  destruct (decide (z ∈ zones)) as [Hin | Hnin].
  - split; [intros _; exact Hin | intros _; eexists; reflexivity].
  - rewrite lookup_empty. split; [intros [x Hx]; discriminate Hx | contradiction].
Qed.



(* ===================================================================== *)
(** ** Resolving the reported times again *)
(* ===================================================================== *)


(* ===================================================================== *)
(** ** The keys of the legacy mapping *)
(* ===================================================================== *)

Lemma filter_source_set (src : string) (zones : list string) :
  (list_to_set (List.filter (fun tz => negb (String.eqb tz src)) zones) : gset string)
  = list_to_set zones ∖ {[src]}.
Proof.
  apply set_eq. intros z.
  rewrite elem_of_difference, !elem_of_list_to_set, elem_of_singleton.
  rewrite !list_elem_of_In, filter_In, negb_true_iff, String.eqb_neq.
  reflexivity.
Qed.

Lemma size_without_source (src : string) :
  In src allZones ->
  size ((list_to_set allZones : gset string) ∖ {[src]}) = 4%nat.
Proof.
  unfold allZones. simpl.
  intros Hin.
  repeat (destruct Hin as [<- | Hin]; [vm_compute; reflexivity |]).
  contradiction.
Qed.

(** C8.  For a well-formed request whose source zone is one of the five
    zones, [convertTime] returns a mapping whose keys are the five zones
    without the source, four entries, each an ["HH:MM"] text with an hour
    from 00 to 23 and a minute from 00 to 59. *)
Theorem legacy_keys_exclude_source
  (tzdb : TimeZoneDb) (y m d h mi : Z) (src : string) :
  validCivil y m d h mi ->
  In src allZones ->
  supportsAll tzdb ->
  allZones = [ "America/Santiago"; "America/New_York";
               "America/Argentina/Buenos_Aires"; "America/Bogota";
               "America/Santo_Domingo" ]
  /\ exists results : gmap string string,
       convertTime tzdb (dateString y m d) (timeString h mi) src = Ok results
       /\ dom results = list_to_set allZones ∖ {[src]}
       /\ size results = 4%nat
       /\ results !! src = None
       /\ forall zone, zone ∈ dom results ->
            exists hh mm, 0 <= hh <= 23 /\ 0 <= mm <= 59
                          /\ results !! zone = Some (timeString hh mm).
Proof.
  intros Hv Hsrc Hall. split; [reflexivity |].
  destruct (Hall src Hsrc) as (off & Hz & Hb).
  eexists. split; [exact (convertTime_valid tzdb y m d h mi src off Hv Hz Hb Hall) |].
  set (t := anchorOf y m d h mi - off (anchorOf y m d h mi) * msPerMinute).
  assert (Hdom : dom (fold_left
                        (fun (r : gmap string string) z => <[z := clockOf tzdb z t]> r)
                        (List.filter (fun tz => negb (String.eqb tz src)) allZones) ∅)
                 = list_to_set allZones ∖ {[src]}).
  { rewrite (dom_fold_insert (fun z => clockOf tzdb z t)). apply filter_source_set. }
  split; [exact Hdom |].
  split; [rewrite <- size_dom, Hdom; apply size_without_source; exact Hsrc |].
  split.
  { apply not_elem_of_dom. rewrite Hdom, elem_of_difference, elem_of_singleton.
    intros [_ H]. apply H. reflexivity. }
  intros zone Hzone.
  rewrite (fold_insert_lookup (fun z => clockOf tzdb z t)).
  rewrite Hdom, <- filter_source_set, elem_of_list_to_set in Hzone.
  rewrite decide_True by exact Hzone.
  apply list_elem_of_In, filter_In in Hzone. destruct Hzone as [Hin _].
  destruct (Hall zone Hin) as (offz & Hzz & _).
  unfold clockOf. rewrite Hzz.
  destruct (hhmmAt_shape (offz t) t) as (hh & mm & Hh & Hm & Heq).
  exists hh, mm. rewrite Heq. auto.
Qed.

Lemma legacy_keys_exclude_source_witness :
  validCivil 2025 1 15 14 30
  /\ In "America/Bogota" allZones
  /\ exists results : gmap string string,
       convertTime tz2025 (dateString 2025 1 15) (timeString 14 30) "America/Bogota"
         = Ok results
       /\ size results = 4%nat.
Proof.
  assert (Hv : validCivil 2025 1 15 14 30) by (unfold validCivil; lia).
  assert (Hin : In "America/Bogota" allZones) by (simpl; auto).
  destruct (legacy_keys_exclude_source tz2025 2025 1 15 14 30 "America/Bogota"
              Hv Hin tz2025_supportsAll)
    as (_ & results & H1 & _ & H2 & _).
  split; [exact Hv |]. split; [exact Hin |].
  exists results. split; [exact H1 | exact H2].
Defined.

(* ===================================================================== *)
(** ** Concrete conversions *)
(* ===================================================================== *)

Lemma anchorOf_2025_01_15 : anchorOf 2025 1 15 14 30 = 1736951400000.
Proof. vm_compute. reflexivity. Qed.

Lemma hhmmAt_1230 : hhmmAt (-300) 1736962200000 = "12:30".
Proof. vm_compute. reflexivity. Qed.

(** C4.  With Chile on UTC-3 at the provisional instant 2025-01-15T14:30Z
    and New York and Bogota on UTC-5 at 2025-01-15T17:30Z, the conversion of
    the [/convert-multi] handler for date ["2025-01-15"], time ["14:30"] and
    source ["America/Santiago"] returns a mapping in which
    ["America/New_York"] and ["America/Bogota"] both map to ["12:30"]. *)
Theorem santiago_1430_is_1230_in_new_york_and_bogota
  (tzdb : TimeZoneDb) (offS offN offB : Z -> Z) :
  supportsAll tzdb ->
  tzdb "America/Santiago" = Some offS ->
  tzdb "America/New_York" = Some offN ->
  tzdb "America/Bogota" = Some offB ->
  offS 1736951400000 = -180 ->
  offN 1736962200000 = -300 ->
  offB 1736962200000 = -300 ->
  exists results : gmap string string,
    convertAll tzdb "2025-01-15" "14:30" "America/Santiago" = Ok results
    /\ results !! "America/New_York" = Some "12:30"
    /\ results !! "America/Bogota" = Some "12:30".
Proof.
  intros Hall HzS HzN HzB HS HN HB.
  assert (Hb : boundedOffsets offS).
  { destruct (Hall "America/Santiago") as (off & Hz & Hb); [simpl; auto |].
    rewrite HzS in Hz. injection Hz as <-. exact Hb. }
  change "2025-01-15" with (dateString 2025 1 15).
  change "14:30" with (timeString 14 30).
  eexists.
  split; [exact (convertAll_valid tzdb 2025 1 15 14 30 "America/Santiago" offS
                   validCivil_2025_01_15 HzS Hb Hall) |].
  rewrite anchorOf_2025_01_15, HS.
  change (1736951400000 - -180 * msPerMinute) with 1736962200000.
  rewrite !(fold_insert_lookup (fun z => clockOf tzdb z 1736962200000)).
  rewrite !decide_True by (unfold allZones; set_solver).
  unfold clockOf. rewrite HzN, HzB, HN, HB, hhmmAt_1230. split; reflexivity.
Qed.

Lemma santiago_1430_is_1230_in_new_york_and_bogota_witness :
  supportsAll tz2025
  /\ santiago2025 1736951400000 = -180
  /\ newYork2025 1736962200000 = -300
  /\ exists results : gmap string string,
       convertAll tz2025 "2025-01-15" "14:30" "America/Santiago" = Ok results
       /\ results !! "America/New_York" = Some "12:30"
       /\ results !! "America/Bogota" = Some "12:30".
Proof.
  split; [exact tz2025_supportsAll |].
  split; [reflexivity |]. split; [reflexivity |].
  apply (santiago_1430_is_1230_in_new_york_and_bogota tz2025
           santiago2025 newYork2025 (fun _ => -300)).
  - exact tz2025_supportsAll.
  - reflexivity.
  - reflexivity.
  - reflexivity.
  - reflexivity.
  - reflexivity.
  - reflexivity.
Defined.

(** C7 fails on the code.  New York moved its clocks forward on
    2025-03-09 at 07:00 UTC.  The local time 05:00 of that day exists once,
    at 09:00 UTC; converting it from New York puts New York itself at 06:00,
    because the offset is read at 05:00 UTC, before the change. *)
Lemma round_trip_fails_after_spring_forward :
  clockOf tz2025 "America/New_York" 1741510800000 = "05:00"
  /\ calculateEpochFromTimezone tz2025 "2025-03-09" "05:00" "America/New_York"
     = Ok (ofZ 1741514400000)
  /\ (results ← convertAll tz2025 "2025-03-09" "05:00" "America/New_York";
      Ok (results !! "America/New_York")) = Ok (Some "06:00").
Proof. repeat (apply conj); vm_compute; reflexivity. Qed.

(* ===================================================================== *)
(** ** Requests are read through their provisional instant *)
(* ===================================================================== *)

Lemma same_anchor_same_conversion (tzdb : TimeZoneDb)
  (d1 t1 d2 t2 zone : string) :
  rejects d1 t1 = rejects d2 t2 ->
  anchorNumber d1 t1 = anchorNumber d2 t2 ->
  calculateEpochFromTimezone tzdb d1 t1 zone = calculateEpochFromTimezone tzdb d2 t2 zone
  /\ convertTime tzdb d1 t1 zone = convertTime tzdb d2 t2 zone
  /\ convertAll tzdb d1 t1 zone = convertAll tzdb d2 t2 zone.
Proof.
  intros Hr Ha. unfold convertTime, convertAll.
  rewrite !calculateEpoch_unfold, ?convertTime_epochUTC_unfold, Hr, Ha.
  repeat split; reflexivity.
Qed.

Lemma rejects_same_time (y1 m1 d1 y2 m2 d2 : Z) (timeStr : string) :
  0 < y1 < 10000 -> 0 < m1 < 100 -> 0 < d1 < 100 ->
  0 < y2 < 10000 -> 0 < m2 < 100 -> 0 < d2 < 100 ->
  rejects (dateString y1 m1 d1) timeStr = rejects (dateString y2 m2 d2) timeStr.
Proof.
  intros. unfold rejects, component.
  rewrite !components_dateString by lia.
  cbn [lookup list_lookup]. rewrite !falsy_ofZ by lia. reflexivity.
Qed.

Lemma anchorNumber_dateString (y m d : Z) (timeStr : string) :
  0 <= y < 10000 -> 0 <= m < 100 -> 0 <= d < 100 ->
  anchorNumber (dateString y m d) timeStr =
  TimeClip (MakeDate (MakeDay (ofZ (fullYear y)) (ofZ (m - 1)) (ofZ d))
              (MakeTime (ToNumber (component ":" timeStr 0))
                        (ToNumber (component ":" timeStr 1)) (ofZ 0) (ofZ 0))).
Proof.
  intros Hy Hm Hd. unfold anchorNumber, component.
  rewrite components_dateString by lia.
  cbn [lookup list_lookup ToNumber].
  unfold Date_UTC. rewrite MakeFullYear_ofZ, nsub_ofZ by lia. reflexivity.
Qed.

Lemma MakeDay_ofZ (y m d : Z) :
  1 <= m <= 12 -> MakeDay (ofZ y) (ofZ (m - 1)) (ofZ d) = ofZ (dayNumber y m d).
Proof.
  intros Hm. unfold MakeDay, ofZ. rewrite !Qtrunc_inject_Z.
  replace ((m - 1) / 12) with 0 by lia.
  replace ((m - 1) mod 12) with (m - 1) by lia.
  rewrite Z.add_0_r. reflexivity.
Qed.

(** X1.  A year written with leading zeros and below 100 is read as a year of
    the twentieth century: a request for the year 50 is converted as the
    same request for 1950, whatever its time and zone, by both entry points
    and by the [/convert-multi] conversion. *)
Theorem two_digit_year_is_read_as_19xx
  (tzdb : TimeZoneDb) (y m d : Z) (timeStr zone : string) :
  1 <= y <= 99 -> 1 <= m <= 99 -> 1 <= d <= 99 ->
  calculateEpochFromTimezone tzdb (dateString y m d) timeStr zone
    = calculateEpochFromTimezone tzdb (dateString (1900 + y) m d) timeStr zone
  /\ convertTime tzdb (dateString y m d) timeStr zone
     = convertTime tzdb (dateString (1900 + y) m d) timeStr zone
  /\ convertAll tzdb (dateString y m d) timeStr zone
     = convertAll tzdb (dateString (1900 + y) m d) timeStr zone.
Proof.
  intros Hy Hm Hd. apply same_anchor_same_conversion.
  - apply rejects_same_time; lia.
  - rewrite !anchorNumber_dateString by lia.
    unfold fullYear.
    replace ((0 <=? y) && (y <=? 99)) with true
      by (symmetry; apply andb_true_iff; split; apply Z.leb_le; lia).
    replace ((0 <=? 1900 + y) && (1900 + y <=? 99)) with false
      by (symmetry; apply andb_false_iff; right; apply Z.leb_gt; lia).
    reflexivity.
Qed.

Lemma two_digit_year_is_read_as_19xx_witness :
  calculateEpochFromTimezone tz2025 "0050-06-15" "12:00" "America/Bogota"
  = calculateEpochFromTimezone tz2025 "1950-06-15" "12:00" "America/Bogota".
Proof.
  destruct (two_digit_year_is_read_as_19xx tz2025 50 6 15 "12:00" "America/Bogota")
    as [H _]; try lia.
  exact H.
Defined.

Lemma day_within_year (y m d : Z) :
  1 <= m <= 12 -> 1 <= d <= 31 ->
  DayFromYear y <= dayNumber y m d < DayFromYear (y + 1).
Proof.
  intros Hm Hd. rewrite DayFromYear_next. unfold dayNumber.
  assert (Hc : m = 1 \/ m = 2 \/ m = 3 \/ m = 4 \/ m = 5 \/ m = 6 \/ m = 7
               \/ m = 8 \/ m = 9 \/ m = 10 \/ m = 11 \/ m = 12) by lia.
  destruct (InLeapYear y);
    repeat (destruct Hc as [Hc | Hc]; [subst m; simpl; lia |]);
    subst m; simpl; lia.
Qed.

Lemma year_unique (a b n : Z) :
  DayFromYear a <= n < DayFromYear (a + 1) ->
  DayFromYear b <= n < DayFromYear (b + 1) -> a = b.
Proof. unfold DayFromYear. lia. Qed.

(** X2.  A day beyond the length of its month is carried into the next month:
    a request for 31 February is converted as the same request for the
    calendar date that many days after 1 February, in the same year,
    whatever its time and zone. *)
Theorem day_beyond_month_is_carried
  (tzdb : TimeZoneDb) (y m d : Z) (timeStr zone : string) :
  101 <= y <= 9999 -> 1 <= m <= 12 -> 1 <= d <= 31 ->
  exists m' d',
    civil_from_days (dayNumber y m d) = (y, m', d')
    /\ 1 <= m' <= 12 /\ 1 <= d' <= 31
    /\ dayNumber y m' d' = dayNumber y m d
    /\ calculateEpochFromTimezone tzdb (dateString y m d) timeStr zone
       = calculateEpochFromTimezone tzdb (dateString y m' d') timeStr zone
    /\ convertTime tzdb (dateString y m d) timeStr zone
       = convertTime tzdb (dateString y m' d') timeStr zone
    /\ convertAll tzdb (dateString y m d) timeStr zone
       = convertAll tzdb (dateString y m' d') timeStr zone.
Proof.
  intros Hy Hm Hd.
  destruct (civil_from_days (dayNumber y m d)) as [[y' m'] d'] eqn:E.
  destruct (civil_from_days_spec _ _ _ _ E) as (Hday & Hm' & Hd' & Hy').
  assert (y' = y)
    by (apply (year_unique y' y (dayNumber y m d) Hy'), day_within_year; lia).
  subst y'. exists m', d'.
  split; [reflexivity |]. split; [exact Hm' |]. split; [exact Hd' |].
  split; [exact Hday |].
  apply same_anchor_same_conversion.
  - apply rejects_same_time; lia.
  - rewrite !anchorNumber_dateString by lia.
    rewrite fullYear_modern by lia.
    rewrite !MakeDay_ofZ by lia. rewrite Hday. reflexivity.
Qed.

Lemma day_beyond_month_is_carried_witness :
  civil_from_days (dayNumber 2025 2 31) = (2025, 3, 3)
  /\ calculateEpochFromTimezone tz2025 "2025-02-31" "12:00" "America/Bogota"
     = calculateEpochFromTimezone tz2025 "2025-03-03" "12:00" "America/Bogota".
Proof.
  destruct (day_beyond_month_is_carried tz2025 2025 2 31 "12:00" "America/Bogota")
    as (m' & d' & E & _ & _ & _ & H & _); try lia.
  assert (E' : civil_from_days (dayNumber 2025 2 31) = (2025, 3, 3))
    by (vm_compute; reflexivity).
  split; [exact E' |].
  rewrite E' in E. injection E as <- <-. exact H.
Defined.

(* ===================================================================== *)
(** ** What a target zone shows *)
(* ===================================================================== *)

Lemma clock_minutes (day h mi k : Z) :
  0 <= h <= 23 -> 0 <= mi <= 59 ->
  let a := day * msPerDay + h * msPerHour + mi * msPerMinute in
  let total := (h * 60 + mi + k) mod 1440 in
  ((a + k * msPerMinute + 0 * msPerMinute) mod msPerDay) / msPerHour = total / 60
  /\ (((a + k * msPerMinute + 0 * msPerMinute) mod msPerDay) mod msPerHour)
       / msPerMinute = total mod 60.
Proof.
  intros Hh Hmi a total. unfold a, total, msPerDay, msPerHour, msPerMinute.
  split; lia.
Qed.

Lemma hhmmAt_minutes (y m d h mi k : Z) :
  validCivil y m d h mi ->
  hhmmAt 0 (anchorOf y m d h mi + k * msPerMinute)
  = timeString (((h * 60 + mi + k) mod 1440) / 60) (((h * 60 + mi + k) mod 1440) mod 60).
Proof.
  intros Hv. rewrite (anchorOf_closed y m d h mi Hv).
  destruct Hv as (_ & _ & _ & Hh & Hmi).
  unfold hhmmAt, timeString.
  destruct (civilAt_clock 0
              (dayNumber y m d * msPerDay + h * msPerHour + mi * msPerMinute
               + k * msPerMinute)) as [-> ->].
  destruct (clock_minutes (dayNumber y m d) h mi k Hh Hmi) as [-> ->].
  reflexivity.
Qed.

(** X3.  For a well-formed request with a supported source, the entry of a
    target zone is the input time moved by the difference between the
    target's offset at the resolved instant and the source's offset at the
    provisional instant, counted in minutes modulo a day.  The legacy
    mapping has the same entry for every zone but the source.  For the
    source itself the entry is the input time whenever its offset is the
    same at both instants. *)
Theorem target_shows_input_shifted_by_offset_difference
  (tzdb : TimeZoneDb) (y m d h mi : Z) (src A : string) (off offA : Z -> Z) :
  validCivil y m d h mi ->
  tzdb src = Some off ->
  boundedOffsets off ->
  supportsAll tzdb ->
  In A allZones ->
  tzdb A = Some offA ->
  let a := anchorOf y m d h mi in
  let t := a - off a * msPerMinute in
  let total := (h * 60 + mi + (offA t - off a)) mod 1440 in
  exists all legacy : gmap string string,
    convertAll tzdb (dateString y m d) (timeString h mi) src = Ok all
    /\ convertTime tzdb (dateString y m d) (timeString h mi) src = Ok legacy
    /\ all !! A = Some (timeString (total / 60) (total mod 60))
    /\ (A <> src -> legacy !! A = Some (timeString (total / 60) (total mod 60)))
    /\ (A = src -> off t = off a -> all !! A = Some (timeString h mi)).
Proof.
  intros Hv Hz Hb Hall HA HzA a t total.
  eexists. eexists.
  split; [exact (convertAll_valid tzdb y m d h mi src off Hv Hz Hb Hall) |].
  split; [exact (convertTime_valid tzdb y m d h mi src off Hv Hz Hb Hall) |].
  fold a. fold t.
  assert (Hclock : clockOf tzdb A t = timeString (total / 60) (total mod 60)).
  { unfold clockOf. rewrite HzA, hhmmAt_shift.
    replace (t + offA t * msPerMinute) with (a + (offA t - off a) * msPerMinute)
      by (unfold t; ring).
    apply hhmmAt_minutes. exact Hv. }
  rewrite !(fold_insert_lookup (fun z => clockOf tzdb z t)).
  split; [| split].
  - rewrite decide_True by (apply list_elem_of_In; exact HA).
    rewrite Hclock. reflexivity.
  - intros Hne. rewrite decide_True.
    + rewrite Hclock. reflexivity.
    + apply list_elem_of_In, filter_In. split; [exact HA |].
      apply negb_true_iff, String.eqb_neq. exact Hne.
  - intros -> Hsame.
    rewrite decide_True by (apply list_elem_of_In; exact HA).
    rewrite Hclock. unfold total.
    rewrite Hz in HzA. injection HzA as <-. rewrite Hsame.
    destruct Hv as (_ & _ & _ & Hh & Hmi).
    replace (h * 60 + mi + (off a - off a)) with (h * 60 + mi) by ring.
    replace ((h * 60 + mi) mod 1440 / 60) with h by lia.
    replace ((h * 60 + mi) mod 1440 mod 60) with mi by lia.
    reflexivity.
Qed.

Lemma target_shows_input_shifted_by_offset_difference_witness :
  validCivil 2025 1 15 14 30
  /\ exists all legacy : gmap string string,
       convertAll tz2025 (dateString 2025 1 15) (timeString 14 30) "America/Santiago"
         = Ok all
       /\ convertTime tz2025 (dateString 2025 1 15) (timeString 14 30)
            "America/Santiago" = Ok legacy
       /\ all !! "America/New_York" = Some "12:30"
       /\ legacy !! "America/New_York" = Some "12:30".
Proof.
  assert (Hv : validCivil 2025 1 15 14 30) by (unfold validCivil; lia).
  destruct (target_shows_input_shifted_by_offset_difference tz2025 2025 1 15 14 30
              "America/Santiago" "America/New_York" santiago2025 newYork2025)
    as (all & legacy & H1 & H2 & H3 & H4 & _).
  - exact Hv.
  - reflexivity.
  - apply (tz2025_bounded "America/Santiago"). reflexivity.
  - exact tz2025_supportsAll.
  - simpl. auto.
  - reflexivity.
  - split; [exact Hv |]. exists all, legacy.
    split; [exact H1 |]. split; [exact H2 |].
    split; [exact H3 |]. apply H4. discriminate.
Defined.

(* ===================================================================== *)
(** ** The two mappings *)
(* ===================================================================== *)

Lemma formatZones_fold (tzdb : TimeZoneDb) (zones : list string) (date : JsDate)
  (q : Q) (acc : gmap string string) :
  TimeClip date = Fin q ->
  (forall z, In z zones -> is_Some (tzdb z)) ->
  formatZones tzdb zones date acc =
  Ok (fold_left (fun (r : gmap string string) z => <[z := clockOf tzdb z (Qtrunc q)]> r)
        zones acc).
Proof.
  intros Hq. revert acc.
  induction zones as [| z rest IH]; intros acc Hs; [reflexivity |].
  destruct (Hs z (or_introl eq_refl)) as (off & Hz).
  cbn [formatZones fold_left]. unfold Intl_format, clockOf, hhmmAt.
  rewrite Hz, Hq. unfold mbind, result_bind.
  apply IH. intros z' Hz'. apply Hs. right. exact Hz'.
Qed.

Lemma formatZones_Ok_inv (tzdb : TimeZoneDb) (zones : list string) (date : JsDate)
  (acc results : gmap string string) :
  zones <> [] ->
  formatZones tzdb zones date acc = Ok results ->
  (exists q, TimeClip date = Fin q) /\ (forall z, In z zones -> is_Some (tzdb z)).
Proof.
  revert acc. induction zones as [| z rest IH]; intros acc Hne H; [congruence |].
  cbn [formatZones] in H. unfold Intl_format in H.
  destruct (tzdb z) as [off |] eqn:Hz; [| discriminate H].
  destruct (TimeClip date) as [| s | q] eqn:Hq; try discriminate H.
  unfold mbind, result_bind in H.
  split; [exists q; reflexivity |].
  intros z' [<- | Hin]; [rewrite Hz; eexists; reflexivity |].
  destruct rest as [| z2 rest']; [contradiction |].
  destruct (IH _ ltac:(discriminate) H) as [_ Hrest].
  apply Hrest. exact Hin.
Qed.

Lemma calculateEpoch_Ok_supported (tzdb : TimeZoneDb) (dateStr timeStr zone : string)
  (epoch : number) :
  calculateEpochFromTimezone tzdb dateStr timeStr zone = Ok epoch ->
  is_Some (tzdb zone).
Proof.
  rewrite calculateEpoch_unfold.
  destruct (rejects dateStr timeStr); [discriminate |].
  unfold resolveAt, getOffset, Intl_formatToParts.
  destruct (tzdb zone); [intros _; eexists; reflexivity | discriminate].
Qed.

Lemma filter_source_nonempty (src : string) :
  List.filter (fun tz => negb (String.eqb tz src)) allZones <> [].
Proof.
  unfold allZones. cbn [List.filter].
  destruct (String.eqb_spec "America/Santiago" src) as [<- | Hne].
  - discriminate.
  - discriminate.
Qed.

Lemma fold_filter_delete (f : string -> string) (src : string) (zones : list string) :
  fold_left (fun (r : gmap string string) z => <[z := f z]> r)
    (List.filter (fun tz => negb (String.eqb tz src)) zones) ∅
  = delete src (fold_left (fun (r : gmap string string) z => <[z := f z]> r) zones ∅).
Proof.
  apply map_eq. intros k.
  rewrite lookup_delete, !fold_insert_lookup, !lookup_empty.
  destruct (decide (src = k)) as [-> | Hne].
  - rewrite decide_False; [reflexivity |].
    rewrite list_elem_of_In, filter_In, negb_true_iff, String.eqb_neq. tauto.
  - destruct (decide (k ∈ zones)) as [Hin | Hnin].
    + rewrite decide_True; [reflexivity |].
      rewrite list_elem_of_In, filter_In, negb_true_iff, String.eqb_neq.
      split; [apply list_elem_of_In; exact Hin | congruence].
    + rewrite decide_False; [reflexivity |].
      rewrite list_elem_of_In, filter_In. intros [Hin _].
      apply Hnin, list_elem_of_In. exact Hin.
Qed.

Lemma convertTime_convertAll
  (tzdb : TimeZoneDb) (dateStr timeStr src : string) :
  (forall all : gmap string string,
     convertAll tzdb dateStr timeStr src = Ok all ->
     convertTime tzdb dateStr timeStr src = Ok (delete src all))
  /\ (forall legacy : gmap string string,
        convertTime tzdb dateStr timeStr src = Ok legacy ->
        exists all, convertAll tzdb dateStr timeStr src = Ok all
                    /\ legacy = delete src all).
Proof.
  unfold convertAll, convertTime.
  assert (He : convertTime_epochUTC tzdb dateStr timeStr src
               = calculateEpochFromTimezone tzdb dateStr timeStr src)
    by (rewrite convertTime_epochUTC_unfold, calculateEpoch_unfold; reflexivity).
  rewrite He.
  destruct (calculateEpochFromTimezone tzdb dateStr timeStr src) as [epoch | e] eqn:Hc.
  2: { split; intros ? H; discriminate H. }
  pose proof (calculateEpoch_Ok_supported _ _ _ _ _ Hc) as Hsrc.
  unfold mbind, result_bind. split.
  - intros all H.
    assert (Hne : allZones <> []) by (unfold allZones; discriminate).
    destruct (formatZones_Ok_inv _ _ _ _ _ Hne H) as [[q Hq] Hs].
    rewrite (formatZones_fold tzdb allZones _ q ∅ Hq Hs) in H.
    match type of H with Ok ?x = _ => assert (Hl : all = x) by congruence end.
    subst all. clear H.
    rewrite (formatZones_fold tzdb _ _ q ∅ Hq).
    + f_equal. apply (fold_filter_delete (fun z => clockOf tzdb z (Qtrunc q))).
    + intros z Hin. apply filter_In in Hin. apply Hs. apply Hin.
  - intros legacy H.
    destruct (formatZones_Ok_inv _ _ _ _ _ (filter_source_nonempty src) H)
      as [[q Hq] Hs].
    rewrite (formatZones_fold tzdb _ _ q ∅ Hq Hs) in H.
    match type of H with Ok ?x = _ => assert (Hl : legacy = x) by congruence end.
    subst legacy. clear H.
    assert (Hall : forall z, In z allZones -> is_Some (tzdb z)).
    { intros z Hin. destruct (String.eqb_spec z src) as [-> | Hne]; [exact Hsrc |].
      apply Hs, filter_In. split; [exact Hin |].
      apply negb_true_iff, String.eqb_neq. exact Hne. }
    eexists. split; [exact (formatZones_fold tzdb allZones _ q ∅ Hq Hall) |].
    apply (fold_filter_delete (fun z => clockOf tzdb z (Qtrunc q))).
Qed.

(** X4.  On every request, well formed or not, the legacy conversion succeeds
    exactly when the conversion of [/convert-multi] does, and its mapping
    is then the other one without the key of the source zone. *)
Theorem legacy_is_multi_without_source
  (tzdb : TimeZoneDb) (dateStr timeStr src : string) :
  (forall all : gmap string string,
     convertAll tzdb dateStr timeStr src = Ok all ->
     convertTime tzdb dateStr timeStr src = Ok (delete src all))
  /\ (forall legacy : gmap string string,
        convertTime tzdb dateStr timeStr src = Ok legacy ->
        exists all, convertAll tzdb dateStr timeStr src = Ok all
                    /\ legacy = delete src all).
Proof. exact (convertTime_convertAll tzdb dateStr timeStr src). Qed.

(** X5.  For a well-formed request with a supported source, in the list or not,
    the mapping of [/convert-multi] has the five zones as its keys, the
    source among them when it is one of the five, each with an ["HH:MM"]
    text. *)
Theorem multi_keys_are_the_five_zones
  (tzdb : TimeZoneDb) (y m d h mi : Z) (src : string) :
  validCivil y m d h mi ->
  supportedZone tzdb src ->
  supportsAll tzdb ->
  exists all : gmap string string,
    convertAll tzdb (dateString y m d) (timeString h mi) src = Ok all
    /\ dom all = list_to_set allZones
    /\ size all = 5%nat
    /\ forall zone, In zone allZones ->
         exists hh mm, 0 <= hh <= 23 /\ 0 <= mm <= 59
                       /\ all !! zone = Some (timeString hh mm).
Proof.
  intros Hv (off & Hz & Hb) Hall.
  eexists. split; [exact (convertAll_valid tzdb y m d h mi src off Hv Hz Hb Hall) |].
  set (t := anchorOf y m d h mi - off (anchorOf y m d h mi) * msPerMinute).
  pose proof (dom_fold_insert (fun z => clockOf tzdb z t) allZones) as Hdom.
  split; [exact Hdom |].
  split; [rewrite <- size_dom, Hdom; vm_compute; reflexivity |].
  intros zone Hin.
  rewrite (fold_insert_lookup (fun z => clockOf tzdb z t)).
  rewrite decide_True by (apply list_elem_of_In; exact Hin).
  destruct (Hall zone Hin) as (offz & Hzz & _).
  unfold clockOf. rewrite Hzz.
  destruct (hhmmAt_shape (offz t) t) as (hh & mm & Hh & Hm & Heq).
  exists hh, mm. rewrite Heq. auto.
Qed.

Lemma multi_keys_are_the_five_zones_witness :
  validCivil 2025 1 15 14 30
  /\ exists all : gmap string string,
       convertAll tz2025 (dateString 2025 1 15) (timeString 14 30) "America/Bogota"
         = Ok all
       /\ size all = 5%nat.
Proof.
  assert (Hv : validCivil 2025 1 15 14 30) by (unfold validCivil; lia).
  destruct (multi_keys_are_the_five_zones tz2025 2025 1 15 14 30 "America/Bogota")
    as (all & H1 & _ & H2 & _).
  - exact Hv.
  - apply tz2025_supported. simpl. auto.
  - exact tz2025_supportsAll.
  - split; [exact Hv |]. exists all. split; [exact H1 | exact H2].
Defined.

Lemma TimeClip_cases (x : number) :
  TimeClip x = NaN \/ exists z, TimeClip x = ofZ z /\ inTimeRange z = true.
Proof.
  destruct x as [| s | t]; try (left; reflexivity).
  unfold TimeClip. destruct (Qle_bool (Qabs t) (inject_Z maxTime)) eqn:E.
  - right. exists (Qtrunc t). split; [reflexivity |].
    apply Qle_bool_iff in E. unfold inTimeRange. apply Z.leb_le.
    destruct t as [n dn]. unfold Qtrunc, Qabs, Qle, inject_Z in *. simpl in *.
    pose proof (Pos2Z.is_pos dn) as Hd.
    generalize dependent (Z.pos dn). intros dz E Hd.
    unfold maxTime in *. nia.
  - left. reflexivity.
Qed.

Lemma TimeClip_idempotent (x : number) : TimeClip (TimeClip x) = TimeClip x.
Proof.
  destruct (TimeClip_cases x) as [-> | (z & -> & Hz)]; [reflexivity |].
  rewrite TimeClip_ofZ, Hz. reflexivity.
Qed.

(** X6.  What a request that passes the validation can still throw, in the
    order of the code: an unknown source zone gives the [RangeError] of the
    formatter's constructor, also when the date is out of range; with a
    known zone, a date outside the range of time values gives the
    [RangeError] of the formatting; otherwise an epoch is returned. *)
Theorem failures_after_validation
  (tzdb : TimeZoneDb) (dateStr timeStr zone : string) :
  rejects dateStr timeStr = false ->
  (tzdb zone = None ->
     calculateEpochFromTimezone tzdb dateStr timeStr zone = Throw RangeError_timeZone
     /\ convertTime tzdb dateStr timeStr zone = Throw RangeError_timeZone
     /\ convertAll tzdb dateStr timeStr zone = Throw RangeError_timeZone)
  /\ (is_Some (tzdb zone) -> anchorNumber dateStr timeStr = NaN ->
        calculateEpochFromTimezone tzdb dateStr timeStr zone = Throw RangeError_timeValue
        /\ convertTime tzdb dateStr timeStr zone = Throw RangeError_timeValue
        /\ convertAll tzdb dateStr timeStr zone = Throw RangeError_timeValue)
  /\ (is_Some (tzdb zone) -> anchorNumber dateStr timeStr <> NaN ->
        exists epoch, calculateEpochFromTimezone tzdb dateStr timeStr zone = Ok epoch).
Proof.
  intros Hr. unfold convertTime, convertAll.
  rewrite !calculateEpoch_unfold, ?convertTime_epochUTC_unfold, Hr.
  unfold resolveAt, getOffset, Intl_formatToParts.
  split; [| split].
  - intros ->. repeat split; reflexivity.
  - intros [off ->] ->. repeat split; reflexivity.
  - intros [off ->] Ha.
    assert (Hfin : exists q, TimeClip (newDate (anchorNumber dateStr timeStr)) = Fin q).
    { unfold newDate. rewrite TimeClip_idempotent.
      unfold anchorNumber, Date_UTC in *. rewrite TimeClip_idempotent.
      destruct (TimeClip_cases (MakeDate
                  (MakeDay (MakeFullYear (ToNumber (component "-" dateStr 0)))
                     (nsub (ToNumber (component "-" dateStr 1)) (ofZ 1))
                     (ToNumber (component "-" dateStr 2)))
                  (MakeTime (ToNumber (component ":" timeStr 0))
                     (ToNumber (component ":" timeStr 1)) (ofZ 0) (ofZ 0))))
        as [Hn | (z & Hz & _)]; [contradiction |].
      rewrite Hz. eexists. reflexivity. }
    destruct Hfin as [q ->]. eexists. reflexivity.
Qed.

Lemma failures_after_validation_witness :
  rejects "275761-01-01" "00:00" = false
  /\ tz2025 "Mars/Olympus" = None
  /\ convertAll tz2025 "275761-01-01" "00:00" "Mars/Olympus" = Throw RangeError_timeZone
  /\ convertAll tz2025 "275761-01-01" "00:00" "America/Bogota"
     = Throw RangeError_timeValue.
Proof.
  assert (Hr : rejects "275761-01-01" "00:00" = false) by (vm_compute; reflexivity).
  assert (Ha : anchorNumber "275761-01-01" "00:00" = NaN) by (vm_compute; reflexivity).
  destruct (failures_after_validation tz2025 "275761-01-01" "00:00" "Mars/Olympus" Hr)
    as (H1 & _ & _).
  destruct (failures_after_validation tz2025 "275761-01-01" "00:00" "America/Bogota" Hr)
    as (_ & H2 & _).
  split; [exact Hr |]. split; [reflexivity |].
  split; [apply H1; reflexivity |].
  apply H2; [eexists; reflexivity | exact Ha].
Defined.

(* ===================================================================== *)
(** ** The two conversion endpoints *)
(* ===================================================================== *)

Lemma orDefault_some (s fallback : string) :
  s <> EmptyString -> orDefault (Some s) fallback = s.
Proof.
  intros H. unfold orDefault. apply String.eqb_neq in H. rewrite H. reflexivity.
Qed.

Lemma handler_cases (tzdb : TimeZoneDb) (date time source : option string) :
  (negb (truthy date) || negb (truthy time) = true
   /\ handleConvert tzdb date time source
      = {| statusCode := 400; body := ErrorText "Missing date or time query parameters" |}
   /\ handleConvertMulti tzdb date time source
      = {| statusCode := 400; body := ErrorText "Missing date or time query parameters" |})
  \/ (exists d t, date = Some d /\ time = Some t /\ d <> EmptyString /\ t <> EmptyString
      /\ handleConvert tzdb date time source
         = match convertTime tzdb d t (orDefault source "America/Santiago") with
           | Ok result => {| statusCode := 200; body := Conversions result |}
           | Throw e => {| statusCode := 400; body := ErrorOf e |}
           end
      /\ handleConvertMulti tzdb date time source
         = match convertAll tzdb d t (orDefault source "America/Santiago") with
           | Ok results => {| statusCode := 200; body := Conversions results |}
           | Throw e => {| statusCode := 400; body := ErrorOf e |}
           end).
Proof.
  unfold handleConvert, handleConvertMulti.
  destruct (negb (truthy date) || negb (truthy time)) eqn:E.
  - left. repeat split; reflexivity.
  - right. apply orb_false_iff in E. destruct E as [Ed Et].
    apply negb_false_iff in Ed, Et.
    destruct date as [d |]; [| discriminate Ed].
    destruct time as [t |]; [| discriminate Et].
    simpl in Ed, Et. apply negb_true_iff in Ed, Et.
    apply String.eqb_neq in Ed, Et.
    exists d, t.
    rewrite (orDefault_some d EmptyString Ed), (orDefault_some t EmptyString Et).
    repeat split; auto.
Qed.

(** X7.  The legacy endpoint [/convert] and [/convert-multi] answer every
    request with the same status.  When [date] or [time] is absent or
    empty both answer 400 with the text of the missing parameters.
    Otherwise both run the conversion from the source zone, which is
    ["America/Santiago"] when [source] is absent or empty: when it returns
    a mapping both answer 200, [/convert-multi] with the mapping and
    [/convert] with the mapping without the key of the source; when it
    throws both answer 400 with the message of the exception, the
    invalid-input error together.  No other status is answered, and the
    status is 200 exactly when the body is a mapping. *)
Theorem endpoints_agree
  (tzdb : TimeZoneDb) (date time source : option string) :
  let missing :=
    {| statusCode := 400;
       body := ErrorText "Missing date or time query parameters" |} in
  let src := orDefault source "America/Santiago" in
  (truthy date = false \/ truthy time = false ->
     handleConvertMulti tzdb date time source = missing
     /\ handleConvert tzdb date time source = missing)
  /\ (forall d t, date = Some d -> time = Some t ->
        d <> EmptyString -> t <> EmptyString ->
        (forall all, convertAll tzdb d t src = Ok all ->
           handleConvertMulti tzdb date time source
             = {| statusCode := 200; body := Conversions all |}
           /\ handleConvert tzdb date time source
              = {| statusCode := 200; body := Conversions (delete src all) |})
        /\ (forall e, convertAll tzdb d t src = Throw e ->
              handleConvertMulti tzdb date time source
                = {| statusCode := 400; body := ErrorOf e |}
              /\ exists e',
                   convertTime tzdb d t src = Throw e'
                   /\ handleConvert tzdb date time source
                      = {| statusCode := 400; body := ErrorOf e' |}
                   /\ (e = InvalidInput <-> e' = InvalidInput)))
  /\ statusCode (handleConvert tzdb date time source)
     = statusCode (handleConvertMulti tzdb date time source)
  /\ (statusCode (handleConvertMulti tzdb date time source) = 200
      \/ statusCode (handleConvertMulti tzdb date time source) = 400)
  /\ (statusCode (handleConvertMulti tzdb date time source) = 200
      <-> exists all, body (handleConvertMulti tzdb date time source)
                      = Conversions all)
  /\ (statusCode (handleConvert tzdb date time source) = 200
      <-> exists legacy, body (handleConvert tzdb date time source)
                         = Conversions legacy)
  /\ (body (handleConvertMulti tzdb date time source) = ErrorOf InvalidInput
      <-> body (handleConvert tzdb date time source) = ErrorOf InvalidInput)
  /\ (forall all,
        body (handleConvertMulti tzdb date time source) = Conversions all ->
        body (handleConvert tzdb date time source) = Conversions (delete src all))
  /\ handleConvertMulti tzdb date time None
     = handleConvertMulti tzdb date time (Some "America/Santiago")
  /\ handleConvertMulti tzdb date time (Some EmptyString)
     = handleConvertMulti tzdb date time (Some "America/Santiago")
  /\ handleConvert tzdb date time None
     = handleConvert tzdb date time (Some "America/Santiago")
  /\ handleConvert tzdb date time (Some EmptyString)
     = handleConvert tzdb date time (Some "America/Santiago").
Proof.
  intros missing src.
  assert (Hdefaults :
    handleConvertMulti tzdb date time None
      = handleConvertMulti tzdb date time (Some "America/Santiago")
    /\ handleConvertMulti tzdb date time (Some EmptyString)
       = handleConvertMulti tzdb date time (Some "America/Santiago")
    /\ handleConvert tzdb date time None
       = handleConvert tzdb date time (Some "America/Santiago")
    /\ handleConvert tzdb date time (Some EmptyString)
       = handleConvert tzdb date time (Some "America/Santiago"))
    by (repeat (apply conj); reflexivity).
  destruct (handler_cases tzdb date time source)
    as [(E & Hl & Hm) | (d & t & Hd & Ht & Hdne & Htne & Hl & Hm)].
  - fold missing in Hl, Hm. rewrite Hl, Hm. cbn [statusCode body missing].
    split; [intros _; split; reflexivity |].
    split.
    { intros d t -> -> Hd Ht. exfalso.
      apply orb_true_iff in E. simpl in E.
      destruct E as [E | E]; apply negb_true_iff, negb_false_iff, String.eqb_eq in E;
        congruence. }
    split; [reflexivity |]. split; [right; reflexivity |].
    split; [split; [discriminate | intros [all H]; discriminate H] |].
    split; [split; [discriminate | intros [all H]; discriminate H] |].
    split; [split; discriminate |].
    split; [intros all H; discriminate H |].
    exact Hdefaults.
  - fold src in Hl, Hm.
    assert (Hnot : ~ (truthy date = false \/ truthy time = false)).
    { subst date time. simpl.
      intros [H | H]; apply negb_false_iff, String.eqb_eq in H; congruence. }
    destruct (convertTime_convertAll tzdb d t src) as [Hfwd Hbwd].
    pose proof (convertTime_invalid_iff tzdb d t src) as Hi1.
    pose proof (convertAll_invalid_iff tzdb d t src) as Hi2.
    split; [intros H; contradiction |].
    split.
    { intros d' t' Hd' Ht' _ _.
      assert (d' = d) by congruence. assert (t' = t) by congruence. subst d' t'.
      split.
      - intros all Ha. rewrite Hm, Hl, Ha, (Hfwd all Ha). split; reflexivity.
      - intros e Ha. rewrite Hm, Hl, Ha. split; [reflexivity |].
        destruct (convertTime tzdb d t src) as [legacy | e'] eqn:El.
        + destruct (Hbwd legacy eq_refl) as (all & H & _). congruence.
        + exists e'. split; [reflexivity |]. split; [reflexivity |].
          split; intros ->.
          * assert (Hx : Throw (A := gmap string string) e' = Throw InvalidInput)
              by (apply Hi1, Hi2; exact Ha).
            congruence.
          * assert (Hx : Throw (A := gmap string string) e = Throw InvalidInput)
              by (rewrite <- Ha; apply Hi2, Hi1; reflexivity).
            congruence. }
    rewrite Hl, Hm.
    destruct (convertAll tzdb d t src) as [all | e] eqn:Ea.
    + rewrite (Hfwd all eq_refl). cbn [statusCode body].
      split; [reflexivity |]. split; [left; reflexivity |].
      split; [split; [intros _; eexists; reflexivity | reflexivity] |].
      split; [split; [intros _; eexists; reflexivity | reflexivity] |].
      split; [split; discriminate |].
      split; [intros all' H; injection H as <-; reflexivity |].
      exact Hdefaults.
    + destruct (convertTime tzdb d t src) as [legacy | e'] eqn:El.
      * destruct (Hbwd legacy eq_refl) as (all & H & _). discriminate H.
      * cbn [statusCode body].
        split; [reflexivity |]. split; [right; reflexivity |].
        split; [split; [discriminate | intros [all H]; discriminate H] |].
        split; [split; [discriminate | intros [all H]; discriminate H] |].
        split.
        { split; intros H; injection H as ->.
          - f_equal. assert (Hx : Throw (A := gmap string string) e' = Throw InvalidInput)
              by (apply Hi1, Hi2; reflexivity).
            congruence.
          - f_equal. assert (Hx : Throw (A := gmap string string) e = Throw InvalidInput)
              by (apply Hi2, Hi1; reflexivity).
            congruence. }
        split; [intros all H; discriminate H |].
        exact Hdefaults.
Qed.

Lemma endpoints_agree_witness :
  handleConvertMulti tz2025 None (Some "14:30") None
    = {| statusCode := 400;
         body := ErrorText "Missing date or time query parameters" |}
  /\ handleConvert tz2025 None (Some "14:30") None
     = {| statusCode := 400;
          body := ErrorText "Missing date or time query parameters" |}.
Proof.
  destruct (endpoints_agree tz2025 None (Some "14:30") None) as (H & _).
  apply H. left. reflexivity.
Defined.

(* ===================================================================== *)
(** ** The endpoint [/current] *)
(* ===================================================================== *)

Lemma split_other (sep c : ascii) (s : string) :
  Ascii.eqb c sep = false ->
  split sep (String c s) =
  match split sep s with
  | [] => [String c EmptyString]
  | hd :: tl => String c hd :: tl
  end.
Proof. intros H. simpl. rewrite H. reflexivity. Qed.

Lemma digit_not_T (n : Z) : 0 <= n <= 9 -> Ascii.eqb (digitChar n) "T" = false.
Proof.
  intros H. apply ascii_eqb_code.
  destruct (digitChar_spec n H) as [Hd _].
  unfold isDigit in Hd. apply andb_true_iff in Hd. destruct Hd as [H1 H2].
  apply Z.leb_le in H1. apply Z.leb_le in H2.
  change (code "T"%char) with 84. lia.
Qed.

Lemma isoYear_pad4 (y : Z) : 0 <= y <= 9999 -> isoYear y = pad4 y.
Proof.
  intros Hy. unfold isoYear.
  replace ((0 <=? y) && (y <=? 9999)) with true
    by (symmetry; apply andb_true_iff; split; apply Z.leb_le; lia).
  unfold pad4, pad2. rewrite !append_cons, append_nil.
  replace (y / 100 / 10) with (y / 1000) by lia.
  reflexivity.
Qed.

Lemma toISOString_date (t : Z) :
  0 <= c_year (civilAt 0 t) <= 9999 ->
  nth 0 (split "T" (toISOString t)) EmptyString
  = dateString (c_year (civilAt 0 t)) (c_month (civilAt 0 t)) (c_day (civilAt 0 t)).
Proof.
  intros Hy.
  destruct (civilAt_fields 0 t) as (_ & _ & Hm & Hd & _).
  unfold toISOString. rewrite (isoYear_pad4 _ Hy).
  generalize dependent (civilAt 0 t). intros c Hy Hm Hd.
  unfold dateString, pad4, pad2.
  cbv [String.concat].
  repeat (rewrite append_cons || rewrite append_nil).
  rewrite (split_other "T" (digitChar (c_year c / 1000))) by (apply digit_not_T; lia).
  rewrite (split_other "T" (digitChar ((c_year c / 100) mod 10)))
    by (apply digit_not_T; lia).
  rewrite (split_other "T" (digitChar (c_year c mod 100 / 10)))
    by (apply digit_not_T; lia).
  rewrite (split_other "T" (digitChar ((c_year c mod 100) mod 10)))
    by (apply digit_not_T; lia).
  rewrite (split_other "T" "-") by reflexivity.
  rewrite (split_other "T" (digitChar (c_month c / 10))) by (apply digit_not_T; lia).
  rewrite (split_other "T" (digitChar (c_month c mod 10))) by (apply digit_not_T; lia).
  rewrite (split_other "T" "-") by reflexivity.
  rewrite (split_other "T" (digitChar (c_day c / 10))) by (apply digit_not_T; lia).
  rewrite (split_other "T" (digitChar (c_day c mod 10))) by (apply digit_not_T; lia).
  rewrite split_sep. reflexivity.
Qed.

Lemma year_of_modern_instant (y day : Z) :
  DayFromYear y <= day < DayFromYear (y + 1) ->
  DayFromYear 101 <= day < DayFromYear 10000 -> 101 <= y <= 9999.
Proof. unfold DayFromYear. lia. Qed.

Lemma modernInstant_day (now : Z) :
  modernInstant now ->
  DayFromYear 101 <= now / msPerDay < DayFromYear 10000
  /\ inTimeRange now = true.
Proof.
  unfold modernInstant, inTimeRange.
  let v := eval vm_compute in (DayFromYear 101) in
    change (DayFromYear 101) with v.
  let v := eval vm_compute in (DayFromYear 10000) in
    change (DayFromYear 10000) with v.
  unfold msPerDay, maxTime. intros H.
  repeat split; try apply Z.leb_le; lia.
Qed.

Lemma currentAnchor_fields (now o dn h mi : Z) :
  dn = now / msPerDay ->
  h = ((now + o * msPerMinute) mod msPerDay) / msPerHour ->
  mi = (((now + o * msPerMinute) mod msPerDay) mod msPerHour) / msPerMinute ->
  dn * msPerDay + h * msPerHour + mi * msPerMinute
  = now - now mod msPerMinute + o * msPerMinute
    + (now / msPerDay - (now + o * msPerMinute) / msPerDay) * msPerDay.
Proof.
  intros -> -> ->. unfold msPerDay, msPerHour, msPerMinute. lia.
Qed.

Lemma clock_of_running_minute (o t : Z) :
  ((t - t mod msPerMinute + o * msPerMinute) mod msPerDay) / msPerHour
  = ((t + o * msPerMinute) mod msPerDay) / msPerHour
  /\ (((t - t mod msPerMinute + o * msPerMinute) mod msPerDay) mod msPerHour)
       / msPerMinute
     = (((t + o * msPerMinute) mod msPerDay) mod msPerHour) / msPerMinute.
Proof. unfold msPerDay, msPerHour, msPerMinute. split; lia. Qed.

(** Within a minute the clock does not move. *)
Lemma hhmmAt_running_minute (o t : Z) :
  hhmmAt o (t - t mod msPerMinute) = hhmmAt o t.
Proof.
  unfold hhmmAt.
  destruct (civilAt_clock o (t - t mod msPerMinute)) as [-> ->].
  destruct (civilAt_clock o t) as [-> ->].
  destruct (clock_of_running_minute o t) as [-> ->].
  reflexivity.
Qed.

Section Current.

Variable tzdb : TimeZoneDb.

Lemma handleCurrent_fields (now : Z) (off : Z -> Z) (y m d h mi : Z) :
  tzdb "America/Santiago" = Some off ->
  boundedOffsets off ->
  supportsAll tzdb ->
  validCivil y m d h mi ->
  nth 0 (split "T" (toISOString now)) EmptyString = dateString y m d ->
  Intl_format tzdb "America/Santiago" (ofZ now) = Ok (timeString h mi) ->
  handleCurrent tzdb now =
  Ok {| statusCode := 200;
        body := CurrentTimes (dateString y m d) (timeString h mi) "America/Santiago"
                  (fold_left
                     (fun (r : gmap string string) z =>
                        <[z := clockOf tzdb z
                                 (anchorOf y m d h mi
                                  - off (anchorOf y m d h mi) * msPerMinute)]> r)
                     allZones ∅) |}.
Proof.
  intros Hz Hb Hall Hv Hdate Htime.
  unfold handleCurrent. rewrite Hdate, Htime.
  unfold mbind at 1. unfold result_bind at 1.
  change (epochUTC ← calculateEpochFromTimezone tzdb (dateString y m d)
                       (timeString h mi) "America/Santiago";
          formatZones tzdb allZones (newDate epochUTC) ∅)
    with (convertAll tzdb (dateString y m d) (timeString h mi) "America/Santiago").
  rewrite (convertAll_valid tzdb y m d h mi "America/Santiago" off Hv Hz Hb Hall).
  reflexivity.
Qed.

Lemma formatZones_unknown (zones : list string) (t : Z) (acc : gmap string string) :
  inTimeRange t = true ->
  (exists z, In z zones /\ tzdb z = None) ->
  formatZones tzdb zones (ofZ t) acc = Throw RangeError_timeZone.
Proof.
  intros Ht. revert acc.
  induction zones as [| z0 rest IH]; intros acc (z & Hin & Hz); [contradiction |].
  cbn [formatZones]. destruct (tzdb z0) as [off |] eqn:E.
  - rewrite (Intl_format_ofZ tzdb t z0 off E Ht). unfold mbind, result_bind.
    apply IH. destruct Hin as [<- | Hin]; [congruence |].
    exists z. split; assumption.
  - unfold Intl_format. rewrite E. reflexivity.
Qed.

Lemma handleCurrent_fields_unknown (now : Z) (off : Z -> Z) (y m d h mi : Z) :
  tzdb "America/Santiago" = Some off ->
  boundedOffsets off ->
  (exists z, In z allZones /\ tzdb z = None) ->
  validCivil y m d h mi ->
  nth 0 (split "T" (toISOString now)) EmptyString = dateString y m d ->
  Intl_format tzdb "America/Santiago" (ofZ now) = Ok (timeString h mi) ->
  handleCurrent tzdb now =
  Ok {| statusCode := 500; body := ErrorOf RangeError_timeZone |}.
Proof.
  intros Hz Hb Hun Hv Hdate Htime.
  unfold handleCurrent. rewrite Hdate, Htime.
  unfold mbind at 1. unfold result_bind at 1.
  rewrite (calculateEpoch_valid tzdb y m d h mi "America/Santiago" off Hv Hz Hb).
  unfold mbind, result_bind.
  destruct (shifted_safe y m d h mi (off (anchorOf y m d h mi)) Hv (Hb _))
    as [Hsafe _].
  destruct (safeInstant_range _ 0 Hsafe ltac:(lia)) as (Ht & _).
  rewrite (newDate_ofZ _ Ht), (formatZones_unknown _ _ _ Ht Hun).
  reflexivity.
Qed.

Lemma current_request_fields (now : Z) (off : Z -> Z) :
  modernInstant now ->
  tzdb "America/Santiago" = Some off ->
  exists y m d h mi,
    validCivil y m d h mi
    /\ nth 0 (split "T" (toISOString now)) EmptyString = dateString y m d
    /\ Intl_format tzdb "America/Santiago" (ofZ now) = Ok (timeString h mi).
Proof.
  intros Hmod Hz.
  destruct (modernInstant_day now Hmod) as [Hday Hrange].
  destruct (civilAt_fields 0 now) as (_ & Hy & Hm & Hd & _).
  cbv zeta in Hy. rewrite Z.mul_0_l, Z.add_0_r in Hy.
  pose proof (year_of_modern_instant _ _ Hy Hday) as Hyear.
  destruct (civilAt_fields (off now) now) as (_ & _ & _ & _ & Hh & Hmi & _).
  pose proof (toISOString_date now ltac:(lia)) as Hdate.
  pose proof (Intl_format_ofZ tzdb now "America/Santiago" off Hz Hrange) as Htime.
  generalize dependent (civilAt (off now) now). intros cl Hh Hmi Htime.
  generalize dependent (civilAt 0 now). intros cu Hy Hm Hd Hyear Hdate.
  exists (c_year cu), (c_month cu), (c_day cu), (c_hour cl), (c_minute cl).
  split; [unfold validCivil; lia |].
  split; [exact Hdate | exact Htime].
Qed.

(** The answer of [/current] at a modern instant when the runtime knows
    the five zones. *)
Lemma handleCurrent_modern (now : Z) (off : Z -> Z) :
  modernInstant now ->
  tzdb "America/Santiago" = Some off ->
  boundedOffsets off ->
  supportsAll tzdb ->
  let a := currentAnchor off now in
  handleCurrent tzdb now =
  Ok {| statusCode := 200;
        body := CurrentTimes
                  (dateString (c_year (civilAt 0 now)) (c_month (civilAt 0 now))
                     (c_day (civilAt 0 now)))
                  (clockOf tzdb "America/Santiago" now) "America/Santiago"
                  (fold_left
                     (fun (r : gmap string string) z =>
                        <[z := clockOf tzdb z (a - off a * msPerMinute)]> r)
                     allZones ∅) |}.
Proof.
  intros Hmod Hz Hb Hall a.
  destruct (modernInstant_day now Hmod) as [Hday Hrange].
  destruct (civilAt_fields 0 now) as (Hdn & Hy & Hm & Hd & _).
  cbv zeta in Hdn, Hy. rewrite Z.mul_0_l, Z.add_0_r in Hdn, Hy.
  pose proof (year_of_modern_instant _ _ Hy Hday) as Hyear.
  destruct (civilAt_fields (off now) now) as (_ & _ & _ & _ & Hh & Hmi & _).
  destruct (civilAt_clock (off now) now) as [Hhour Hminute].
  pose proof (toISOString_date now ltac:(lia)) as Hdate.
  pose proof (Intl_format_ofZ tzdb now "America/Santiago" off Hz Hrange) as Htime.
  unfold clockOf. rewrite Hz. unfold hhmmAt.
  subst a. unfold currentAnchor.
  generalize dependent (civilAt (off now) now). intros cl Hh Hmi Hhour Hminute Htime.
  generalize dependent (civilAt 0 now). intros cu Hdn Hy Hm Hd Hyear Hdate.
  assert (Hv : validCivil (c_year cu) (c_month cu) (c_day cu) (c_hour cl) (c_minute cl))
    by (unfold validCivil; lia).
  rewrite (handleCurrent_fields now off _ _ _ _ _ Hz Hb Hall Hv Hdate Htime).
  rewrite (anchorOf_closed _ _ _ _ _ Hv).
  rewrite (currentAnchor_fields now (off now) _ _ _ Hdn Hhour Hminute).
  reflexivity.
Qed.

End Current.

(** X8.  While the calendar date in Santiago is the UTC date, and the offset of
    Santiago at the provisional instant is the one at [now], [/current]
    answers 200 with the UTC date, the clock of Santiago at [now], and for
    each of the five zones the clock it shows at the start of the running
    minute. *)
Theorem current_converts_the_running_minute
  (tzdb : TimeZoneDb) (now : Z) (off : Z -> Z) :
  modernInstant now ->
  tzdb "America/Santiago" = Some off ->
  boundedOffsets off ->
  supportsAll tzdb ->
  (now + off now * msPerMinute) / msPerDay = now / msPerDay ->
  off (now - now mod msPerMinute + off now * msPerMinute) = off now ->
  exists conversions : gmap string string,
    handleCurrent tzdb now =
      Ok {| statusCode := 200;
            body := CurrentTimes
                      (dateString (c_year (civilAt 0 now)) (c_month (civilAt 0 now))
                         (c_day (civilAt 0 now)))
                      (clockOf tzdb "America/Santiago" now) "America/Santiago"
                      conversions |}
    /\ (forall z, In z allZones ->
          conversions !! z = Some (clockOf tzdb z (now - now mod msPerMinute)))
    /\ (off (now - now mod msPerMinute) = off now ->
        conversions !! "America/Santiago"
        = Some (clockOf tzdb "America/Santiago" now)).
Proof.
  intros Hmod Hz Hb Hall Hsame Hoff.
  pose proof (handleCurrent_modern tzdb now off Hmod Hz Hb Hall) as Hc.
  cbv zeta in Hc.
  assert (Ha : currentAnchor off now
               = now - now mod msPerMinute + off now * msPerMinute)
    by (unfold currentAnchor; rewrite Hsame; ring).
  rewrite Ha, Hoff in Hc.
  replace (now - now mod msPerMinute + off now * msPerMinute - off now * msPerMinute)
    with (now - now mod msPerMinute) in Hc by ring.
  eexists. split; [exact Hc |].
  assert (Hall5 : forall z, In z allZones ->
            fold_left (fun (r : gmap string string) z =>
                         <[z := clockOf tzdb z (now - now mod msPerMinute)]> r)
              allZones ∅ !! z
            = Some (clockOf tzdb z (now - now mod msPerMinute))).
  { intros z Hin.
    rewrite (fold_insert_lookup (fun z => clockOf tzdb z (now - now mod msPerMinute))).
    rewrite decide_True by (apply list_elem_of_In; exact Hin).
    reflexivity. }
  split; [exact Hall5 |].
  intros Hfloor. rewrite Hall5 by (simpl; auto).
  unfold clockOf. rewrite Hz, Hfloor, hhmmAt_running_minute. reflexivity.
Qed.

Lemma current_converts_the_running_minute_witness :
  modernInstant 1736962212345
  /\ exists conversions : gmap string string,
       handleCurrent tz2025 1736962212345 =
         Ok {| statusCode := 200;
               body := CurrentTimes "2025-01-15" "14:30" "America/Santiago"
                         conversions |}
       /\ conversions !! "America/New_York" = Some "12:30"
       /\ conversions !! "America/Santiago" = Some "14:30".
Proof.
  assert (Hm : modernInstant 1736962212345)
    by (unfold modernInstant; split; [apply Z.leb_le | apply Z.ltb_lt];
        vm_compute; reflexivity).
  destruct (current_converts_the_running_minute tz2025 1736962212345 santiago2025)
    as (conversions & H1 & H2 & _).
  - exact Hm.
  - reflexivity.
  - apply (tz2025_bounded "America/Santiago"). reflexivity.
  - exact tz2025_supportsAll.
  - vm_compute. reflexivity.
  - vm_compute. reflexivity.
  - split; [exact Hm |]. exists conversions.
    split; [exact H1 |].
    split; [apply (H2 "America/New_York") | apply (H2 "America/Santiago")];
      simpl; auto.
Defined.

(** X9.  While the calendar date in Santiago is the day before the UTC date,
    as in the evening there, [/current] reports the UTC date, a day ahead
    of the date in Santiago, and combines it with the clock of Santiago.
    The provisional instant [a] is then the running minute moved by the
    offset of Santiago and by a day, and the clocks reported for the five
    zones are those of the instant [t], 24 hours after the running minute
    and as many minutes more as the offset of Santiago at [now] exceeds its
    offset at [a]: 24 hours after when the two offsets are equal. *)
Theorem current_is_a_day_ahead_in_the_evening
  (tzdb : TimeZoneDb) (now : Z) (off : Z -> Z) :
  modernInstant now ->
  tzdb "America/Santiago" = Some off ->
  boundedOffsets off ->
  supportsAll tzdb ->
  (now + off now * msPerMinute) / msPerDay = now / msPerDay - 1 ->
  let utc := civilAt 0 now in
  let local := civilAt (off now) now in
  let a := now - now mod msPerMinute + off now * msPerMinute + msPerDay in
  let t := now - now mod msPerMinute + msPerDay + (off now - off a) * msPerMinute in
  exists conversions : gmap string string,
    handleCurrent tzdb now =
      Ok {| statusCode := 200;
            body := CurrentTimes
                      (dateString (c_year utc) (c_month utc) (c_day utc))
                      (clockOf tzdb "America/Santiago" now) "America/Santiago"
                      conversions |}
    /\ dayNumber (c_year utc) (c_month utc) (c_day utc)
       = dayNumber (c_year local) (c_month local) (c_day local) + 1
    /\ (forall z, In z allZones -> conversions !! z = Some (clockOf tzdb z t))
    /\ (off a = off now ->
        forall z, In z allZones ->
          conversions !! z
          = Some (clockOf tzdb z (now - now mod msPerMinute + msPerDay))).
Proof.
  intros Hmod Hz Hb Hall Hprev utc local a t.
  pose proof (handleCurrent_modern tzdb now off Hmod Hz Hb Hall) as Hc.
  cbv zeta in Hc.
  assert (Ha : currentAnchor off now = a)
    by (unfold currentAnchor, a; rewrite Hprev; ring).
  rewrite Ha in Hc.
  replace (a - off a * msPerMinute) with t in Hc by (unfold t, a; ring).
  assert (Hall5 : forall z, In z allZones ->
            fold_left (fun (r : gmap string string) z => <[z := clockOf tzdb z t]> r)
              allZones ∅ !! z
            = Some (clockOf tzdb z t)).
  { intros z Hin.
    rewrite (fold_insert_lookup (fun z => clockOf tzdb z t)).
    rewrite decide_True by (apply list_elem_of_In; exact Hin).
    reflexivity. }
  eexists. split; [exact Hc |]. split; [| split].
  - destruct (civilAt_fields 0 now) as (Hu & _).
    destruct (civilAt_fields (off now) now) as (Hl & _).
    cbv zeta in Hu, Hl. rewrite Z.mul_0_l, Z.add_0_r in Hu.
    fold utc in Hu. fold local in Hl. rewrite Hu, Hl, Hprev. ring.
  - exact Hall5.
  - intros Hoff z Hin. rewrite (Hall5 z Hin). do 2 f_equal.
    unfold t. rewrite Hoff. ring.
Qed.

Lemma current_is_a_day_ahead_in_the_evening_witness :
  modernInstant 1743903000000
  /\ clockOf tz2025 "America/New_York" 1743903000000 = "21:30"
  /\ exists conversions : gmap string string,
       handleCurrent tz2025 1743903000000 =
         Ok {| statusCode := 200;
               body := CurrentTimes "2025-04-06" "22:30" "America/Santiago"
                         conversions |}
       /\ conversions !! "America/Santiago" = Some "22:30"
       /\ conversions !! "America/New_York" = Some "22:30"
       /\ conversions !! "America/Bogota" = Some "21:30".
Proof.
  assert (Hm : modernInstant 1743903000000)
    by (unfold modernInstant; split; [apply Z.leb_le | apply Z.ltb_lt];
        vm_compute; reflexivity).
  destruct (current_is_a_day_ahead_in_the_evening tz2025 1743903000000 santiago2025)
    as (conversions & H1 & _ & H2 & _).
  - exact Hm.
  - reflexivity.
  - apply (tz2025_bounded "America/Santiago"). reflexivity.
  - exact tz2025_supportsAll.
  - vm_compute. reflexivity.
  - split; [exact Hm |]. split; [vm_compute; reflexivity |].
    exists conversions. split; [exact H1 |].
    split; [apply (H2 "America/Santiago") | split;
      [apply (H2 "America/New_York") | apply (H2 "America/Bogota")]];
      simpl; auto.
Defined.

(** X10.  The formatting of the clock of Santiago stands before the [try] of
    [/current]: when the runtime does not know that zone the exception
    leaves the handler, and no response is written.  When it knows
    Santiago and not another of the five zones, the exception is caught
    and answered with status 500, where the two conversion endpoints
    answer 400. *)
Theorem current_unknown_zone
  (tzdb : TimeZoneDb) (now : Z) :
  modernInstant now ->
  (tzdb "America/Santiago" = None ->
     handleCurrent tzdb now = Throw RangeError_timeZone)
  /\ (forall (off : Z -> Z) (z : string),
        tzdb "America/Santiago" = Some off ->
        boundedOffsets off ->
        In z allZones ->
        tzdb z = None ->
        handleCurrent tzdb now
        = Ok {| statusCode := 500; body := ErrorOf RangeError_timeZone |}).
Proof.
  intros Hmod. split.
  - intros Hz. unfold handleCurrent, Intl_format. rewrite Hz. reflexivity.
  - intros off z Hz Hb Hin Hnone.
    destruct (current_request_fields tzdb now off Hmod Hz)
      as (y & m & d & h & mi & Hv & Hdate & Htime).
    apply (handleCurrent_fields_unknown tzdb now off y m d h mi); auto.
    exists z. split; assumption.
Qed.

Lemma current_unknown_zone_witness :
  modernInstant 1736962212345
  /\ handleCurrent tz2025_without_Bogota 1736962212345
     = Ok {| statusCode := 500; body := ErrorOf RangeError_timeZone |}
  /\ handleConvertMulti tz2025_without_Bogota (Some "2025-01-15") (Some "14:30") None
     = {| statusCode := 400; body := ErrorOf RangeError_timeZone |}.
Proof.
  assert (Hm : modernInstant 1736962212345)
    by (unfold modernInstant; split; [apply Z.leb_le | apply Z.ltb_lt];
        vm_compute; reflexivity).
  destruct (current_unknown_zone tz2025_without_Bogota 1736962212345 Hm) as [_ H].
  split; [exact Hm |]. split.
  - apply (H santiago2025 "America/Bogota").
    + reflexivity.
    + apply (tz2025_bounded "America/Santiago"). reflexivity.
    + simpl. auto.
    + reflexivity.
  - vm_compute. reflexivity.
Defined.

(* ===================================================================== *)
(** ** What of a request is read *)
(* ===================================================================== *)

Lemma component_take (sep : ascii) (s1 s2 : string) (n i : nat) :
  take n (map Number (split sep s1)) = take n (map Number (split sep s2)) ->
  (i < n)%nat ->
  component sep s1 i = component sep s2 i.
Proof.
  intros H Hi. unfold component.
  rewrite <- (lookup_take_lt (map Number (split sep s1)) n i Hi).
  rewrite <- (lookup_take_lt (map Number (split sep s2)) n i Hi).
  rewrite H. reflexivity.
Qed.

(** X11.  Of a request the converters read the numbers of the first three parts
    of the date between dashes and of the first two parts of the time
    between colons, and nothing else: two requests that agree on these
    numbers, whatever their spelling and whatever follows, are answered
    alike, be it with a result or with an exception. *)
Theorem only_the_leading_numbers_are_read
  (tzdb : TimeZoneDb) (d1 t1 d2 t2 zone : string) :
  take 3 (map Number (split "-" d1)) = take 3 (map Number (split "-" d2)) ->
  take 2 (map Number (split ":" t1)) = take 2 (map Number (split ":" t2)) ->
  calculateEpochFromTimezone tzdb d1 t1 zone = calculateEpochFromTimezone tzdb d2 t2 zone
  /\ convertTime tzdb d1 t1 zone = convertTime tzdb d2 t2 zone
  /\ convertAll tzdb d1 t1 zone = convertAll tzdb d2 t2 zone.
Proof.
  intros Hd Ht.
  pose proof (component_take "-" d1 d2 3 0 Hd ltac:(lia)) as H0.
  pose proof (component_take "-" d1 d2 3 1 Hd ltac:(lia)) as H1.
  pose proof (component_take "-" d1 d2 3 2 Hd ltac:(lia)) as H2.
  pose proof (component_take ":" t1 t2 2 0 Ht ltac:(lia)) as H3.
  pose proof (component_take ":" t1 t2 2 1 Ht ltac:(lia)) as H4.
  apply same_anchor_same_conversion.
  - unfold rejects. rewrite H0, H1, H2, H3, H4. reflexivity.
  - unfold anchorNumber. rewrite H0, H1, H2, H3, H4. reflexivity.
Qed.

Lemma only_the_leading_numbers_are_read_witness :
  convertAll tz2025 "2025-1-15-x" " 14:30:59" "America/Santiago"
  = convertAll tz2025 "2025-01-15" "14:30" "America/Santiago".
Proof.
  apply (only_the_leading_numbers_are_read tz2025 "2025-1-15-x" " 14:30:59"
           "2025-01-15" "14:30" "America/Santiago").
  - vm_compute. reflexivity.
  - vm_compute. reflexivity.
Defined.
